(** * python-hosts: the hosts-file entry model and the collection operations

    A shallow embedding of [src/hosts/hosts.py]: the class [HostsEntry]
    (constructor, [get_entry_type], [str_to_hostentry]) and the class
    [Hosts] ([write], [add], [count], [remove], [populate_entries]).

    Conventions of the embedding.
    - A Python [str] is a [string] of 8-bit characters (the module is
      Python 2 code: implicit relative imports of [exception] and [utils]).
    - Python objects live in an object store: a [HostsEntry] instance is a
      reference [ref]; [self.entries] is a list of references.  The class
      defines no [__eq__], so [list.remove] compares references.
    - A method is a function [State -> State * result A]: it returns the
      state it leaves behind together with its value or the exception it
      raised.  The state is kept when an exception is raised, as in Python.
    - The helpers [is_ipv4], [is_ipv6] and [valid_hostnames] are imported
      from [utils], which is not part of the sources; the embedding takes
      them as parameters.
    - The two [print] calls of [str_to_hostentry] only write diagnostics to
      standard output, which is not part of the state. *)

From Stdlib Require Import String Ascii List Bool Arith Lia.
Import ListNotations.
Open Scope string_scope.

(** ** Python strings *)

Definition nl : ascii := "010"%char.
Definition tab : ascii := "009"%char.
Definition hash : ascii := "#"%char.

Definition NL : string := String nl EmptyString.
Definition TAB : string := String tab EmptyString.
Definition SP : string := " ".

(** The characters [str.split()] and [str.strip()] treat as whitespace:
    space, and the control characters 9 to 13. *)
Definition is_space (c : ascii) : bool :=
  let n := nat_of_ascii c in
  Nat.eqb n 32 || (Nat.leb 9 n && Nat.leb n 13).

(** [s.split()]: the maximal runs of characters that are not whitespace. *)
Fixpoint split (s : string) : list string :=
  match s with
  | EmptyString => []
  | String c s' =>
      if is_space c then split s'
      else match s' with
           | EmptyString => [String c EmptyString]
           | String c' _ =>
               if is_space c' then String c EmptyString :: split s'
               else match split s' with
                    | t :: ts => String c t :: ts
                    | [] => [String c EmptyString]
                    end
           end
  end.

Fixpoint lstrip (s : string) : string :=
  match s with
  | EmptyString => EmptyString
  | String c s' => if is_space c then lstrip s' else s
  end.

Fixpoint rstrip (s : string) : string :=
  match s with
  | EmptyString => EmptyString
  | String c s' =>
      match rstrip s' with
      | EmptyString => if is_space c then EmptyString else String c EmptyString
      | t => String c t
      end
  end.

(** [s.strip()] *)
Definition strip (s : string) : string := rstrip (lstrip s).

(** [sep.join(l)] *)
Fixpoint join (sep : string) (l : list string) : string :=
  match l with
  | [] => EmptyString
  | [x] => x
  | x :: rest => x ++ sep ++ join sep rest
  end.

(** Iterating over a file opened in mode ['r']: the lines, each with its
    terminating newline; the last one may lack it. *)
Fixpoint readlines (s : string) : list string :=
  match s with
  | EmptyString => []
  | String c s' =>
      if Ascii.eqb c nl then String c EmptyString :: readlines s'
      else match readlines s' with
           | [] => [String c EmptyString]
           | l :: ls => String c l :: ls
           end
  end.

(** What is written to a file by successive [write] calls. *)
Definition concat_str (l : list string) : string :=
  fold_right String.append EmptyString l.

(** Truth value of a Python value that is [None] or a [str], and of one
    that is [None] or a list. *)
Definition truthy_str (o : option string) : bool :=
  match o with
  | Some (String _ _) => true
  | _ => false
  end.

Definition truthy_list {A : Type} (o : option (list A)) : bool :=
  match o with
  | Some (_ :: _) => true
  | _ => false
  end.

Definition opt_str_eqb (a b : option string) : bool :=
  match a, b with
  | None, None => true
  | Some x, Some y => String.eqb x y
  | _, _ => false
  end.

Definition names_eqb (a b : list string) : bool :=
  if list_eq_dec string_dec a b then true else false.

Definition opt_names_eqb (a b : option (list string)) : bool :=
  match a, b with
  | None, None => true
  | Some x, Some y => names_eqb x y
  | _, _ => false
  end.

Definition mem_str (x : string) (l : list string) : bool :=
  existsb (String.eqb x) l.

(** Truth value of [set(a).intersection(b)]: some element is common. *)
Definition names_inter (a b : list string) : bool :=
  existsb (fun x => mem_str x b) a.

(** ** Exceptions and results *)

Inductive PyErr : Type :=
| Exception (msg : string)
| InvalidIPv4Address
| InvalidIPv6Address
| IndexError
| ValueError
| AttributeError
| TypeError
| IOError.

Inductive result (A : Type) : Type :=
| Ok (a : A)
| Raise (e : PyErr).
Arguments Ok {A} a.
Arguments Raise {A} e.

(** ** Entries *)

Inductive EntryType : Type := Comment | Blank | Ipv4 | Ipv6.

Definition entry_type_eqb (a b : EntryType) : bool :=
  match a, b with
  | Comment, Comment | Blank, Blank | Ipv4, Ipv4 | Ipv6, Ipv6 => true
  | _, _ => false
  end.

(** The strings the code uses for the four kinds. *)
Definition entry_type_name (t : EntryType) : string :=
  match t with
  | Comment => "comment"
  | Blank => "blank"
  | Ipv4 => "ipv4"
  | Ipv6 => "ipv6"
  end.

Definition parse_entry_type (s : string) : option EntryType :=
  if String.eqb s "ipv4" then Some Ipv4
  else if String.eqb s "ipv6" then Some Ipv6
  else if String.eqb s "comment" then Some Comment
  else if String.eqb s "blank" then Some Blank
  else None.

(** The attributes of a [HostsEntry] instance.  [address], [comment] and
    [names] default to [None]. *)
Record HostsEntry : Type := mkEntry {
  entry_type : EntryType;
  address : option string;
  comment : option string;
  names : option (list string)
}.

Definition is_address_type (t : EntryType) : bool :=
  match t with
  | Ipv4 | Ipv6 => true
  | _ => false
  end.

(** ** State: object store, the [Hosts] instance and its file *)

Definition ref := nat.

Record State : Type := mkState {
  next_ref : ref;                (* the next fresh reference *)
  obj : ref -> HostsEntry;       (* the object a reference denotes *)
  entries : list ref;            (* self.entries *)
  hosts_file : option string;    (* content of the file at self.hosts_path;
                                    None when it cannot be opened for reading *)
  writable : bool                (* open(self.hosts_path, 'w') succeeds *)
}.

Definition set_entries (l : list ref) (s : State) : State :=
  mkState (next_ref s) (obj s) l (hosts_file s) (writable s).

Definition set_hosts_file (c : option string) (s : State) : State :=
  mkState (next_ref s) (obj s) (entries s) c (writable s).

(** Allocation of a new instance with the attributes [e]. *)
Definition alloc_state (e : HostsEntry) (s : State) : State :=
  mkState (S (next_ref s))
          (fun r => if Nat.eqb r (next_ref s) then e else obj s r)
          (entries s) (hosts_file s) (writable s).

(** The entries of the collection, as attribute records. *)
Definition entry_values (s : State) : list HostsEntry :=
  map (obj s) (entries s).

(** ** The monad of methods *)

Definition M (A : Type) : Type := State -> State * result A.

Definition ret {A : Type} (a : A) : M A := fun s => (s, Ok a).

Definition raise {A : Type} (e : PyErr) : M A := fun s => (s, Raise e).

Definition bind {A B : Type} (m : M A) (k : A -> M B) : M B :=
  fun s =>
    match m s with
    | (s', Ok a) => k a s'
    | (s', Raise e) => (s', Raise e)
    end.

Notation "x <- m ;; k" := (bind m (fun x => k))
  (at level 61, m at next level, right associativity).
Notation "m ;;; k" := (bind m (fun _ => k))
  (at level 61, right associativity).

Definition get_state : M State := fun s => (s, Ok s).

Definition lift_result {A : Type} (r : result A) : M A := fun s => (s, r).

(** A value passed as the [entry] argument of a method: [None] (the
    default), a [str], or a [HostsEntry] instance. *)
Inductive PyArg : Type :=
| PNone
| PStr (s : string)
| PEntry (r : ref).

(** The dictionary returned by [count]. *)
Record Counts : Type := mkCounts {
  address_matches : nat;
  name_matches : nat;
  comment_matches : nat
}.

Definition b2n (b : bool) : nat := if b then 1 else 0.

(** ** The code *)

Section Hosts.

(** The validators imported from [utils]. *)
Variable is_ipv4 : string -> bool.
Variable is_ipv6 : string -> bool.
Variable valid_hostnames : list string -> bool.

Definition missing_fields : PyErr :=
  Exception "Address and Name(s) must be specified.".

(** The checks of [__init__] on an [ipv4] or [ipv6] entry:
    [not all((address, names))], then the validator of the family. *)
Definition check_address (valid : string -> bool) (bad : PyErr)
    (address0 : option string) (names0 : option (list string)) : M unit :=
  match address0 with
  | Some (String c a) =>
      if truthy_list names0 then
        if valid (String c a) then ret tt else raise bad
      else raise missing_fields
  | _ => raise missing_fields
  end.

(** [HostsEntry.__init__]: returns the reference of the new instance. *)
Definition HostsEntry_init (entry_type0 : option string)
    (address0 comment0 : option string) (names0 : option (list string))
    : M ref :=
  match match entry_type0 with
        | Some name => parse_entry_type name
        | None => None
        end with
  | None => raise (Exception "entry_type invalid or not specified")
  | Some t =>
      if entry_type_eqb t Comment && negb (truthy_str comment0) then
        raise (Exception "entry_type comment supplied without value.")
      else
        (if entry_type_eqb t Ipv4
         then check_address is_ipv4 InvalidIPv4Address address0 names0
         else ret tt) ;;;
        (if entry_type_eqb t Ipv6
         then check_address is_ipv6 InvalidIPv6Address address0 names0
         else ret tt) ;;;
        (fun s => (alloc_state (mkEntry t address0 comment0 names0) s,
                   Ok (next_ref s)))
  end.

(** [HostsEntry.get_entry_type]: [Ok (Some t)] for the string naming [t],
    [Ok None] for [False]. *)
Definition get_entry_type (hosts_entry : string)
    : result (option EntryType) :=
  match hosts_entry with
  | EmptyString => Raise IndexError
  | String c _ =>
      if Ascii.eqb c hash then Ok (Some Comment)
      else if Ascii.eqb c nl then Ok (Some Blank)
      else match split hosts_entry with
           | [] => Raise IndexError
           | chunk :: _ =>
               if is_ipv4 chunk then Ok (Some Ipv4)
               else if is_ipv6 chunk then Ok (Some Ipv6)
               else Ok None
           end
  end.

(** [HostsEntry.str_to_hostentry] on a [str] (its callers test
    [isinstance(entry, str)] first): [None] stands for [False]. *)
Definition str_to_hostentry (entry : string) : M (option ref) :=
  match split (strip entry) with
  | [] => raise IndexError
  | EmptyString :: _ => raise IndexError
  | String c p :: rest =>
      let first := String c p in
      if Ascii.eqb c hash then
        r <- HostsEntry_init (Some "comment") None (Some first) None ;;
        ret (Some r)
      else if is_ipv4 first then
        if valid_hostnames rest then
          r <- HostsEntry_init (Some "ipv4") (Some first) None (Some rest) ;;
          ret (Some r)
        else ret None
      else if is_ipv6 first then
        if valid_hostnames rest then
          r <- HostsEntry_init (Some "ipv6") (Some first) None (Some rest) ;;
          ret (Some r)
        else ret None
      else ret None
  end.

(** [str(x)] for an address, as [format] prints it. *)
Definition format_address (a : option string) : string :=
  match a with
  | Some x => x
  | None => "None"
  end.

(** What [write] writes for one entry. *)
Definition entry_text (line : HostsEntry) : result string :=
  match entry_type line with
  | Comment =>
      match comment line with
      | Some c => Ok c
      | None => Raise TypeError
      end
  | Blank => Ok NL
  | Ipv4 | Ipv6 =>
      match names line with
      | Some ns =>
          Ok (format_address (address line) ++ TAB ++ join SP ns ++ NL)
      | None => Raise TypeError
      end
  end.

(** The loop of [write]: [out] is what has been written so far. *)
Fixpoint write_lines (l : list HostsEntry) (out : string)
    : string * result unit :=
  match l with
  | [] => (out, Ok tt)
  | line :: rest =>
      match entry_text line with
      | Ok t => write_lines rest (out ++ t)
      | Raise e => (out, Raise e)
      end
  end.

(** [Hosts.write] *)
Definition write : M unit :=
  fun s =>
    if writable s then
      let (out, r) := write_lines (entry_values s) EmptyString in
      (set_hosts_file (Some out) s, r)
    else (s, Raise IOError).

(** The conversion [add] and [count] start with. *)
Definition resolve (entry : PyArg) : M (option ref) :=
  match entry with
  | PNone => ret None
  | PStr str => str_to_hostentry str
  | PEntry r => ret (Some r)
  end.

(** One iteration of the loop of [count]. *)
Definition count_step (entry : HostsEntry) (c : Counts) (host : HostsEntry)
    : Counts :=
  let is_addr := is_address_type (entry_type entry) in
  let name_hit :=
    is_addr && truthy_list (names host) && truthy_list (names entry) &&
    match names entry, names host with
    | Some en, Some hn => names_inter en hn
    | _, _ => false
    end in
  let address_hit :=
    is_addr && truthy_str (address host) &&
    opt_str_eqb (address host) (address entry) in
  let comment_hit :=
    entry_type_eqb (entry_type entry) Comment &&
    opt_str_eqb (comment host) (comment entry) in
  mkCounts (address_matches c + b2n address_hit)
           (name_matches c + b2n name_hit)
           (comment_matches c + b2n comment_hit).

Definition count_entry (entry : HostsEntry) (hosts : list HostsEntry)
    : Counts :=
  fold_left (count_step entry) hosts (mkCounts 0 0 0).

(** [Hosts.count] *)
Definition count (entry : PyArg) : M Counts :=
  e <- resolve entry ;;
  s <- get_state ;;
  match e with
  | Some r => ret (count_entry (obj s r) (entry_values s))
  | None =>
      match entries s with
      | [] => ret (mkCounts 0 0 0)
      | _ :: _ => raise AttributeError
      end
  end.

(** The first condition of the loop of [remove]. *)
Definition names_match (entry existing : HostsEntry) : bool :=
  truthy_list (names existing) && truthy_list (names entry) &&
  (opt_str_eqb (address existing) (address entry)
   || opt_names_eqb (names existing) (names entry)
   || match names existing, names entry with
      | Some xn, Some en => names_inter xn en
      | _, _ => false
      end).

(** The second condition of the loop of [remove]. *)
Definition comment_match (entry existing : HostsEntry) : bool :=
  truthy_str (comment entry) &&
  opt_str_eqb (comment existing) (comment entry).

(** The first loop of [remove]: [removal_list] and [removed]. *)
Fixpoint removal_scan (o : ref -> HostsEntry) (entry : HostsEntry)
    (l : list ref) : list ref * nat :=
  match l with
  | [] => ([], 0)
  | x :: rest =>
      let (rl, n) := removal_scan o entry rest in
      ((if names_match entry (o x) then [x] else []) ++
       (if comment_match entry (o x) then [x] else []) ++ rl,
       b2n (names_match entry (o x)) + n)%list
  end.

(** [l.remove(x)] on a list of instances: the first occurrence of the
    reference [x] is dropped; [None] when there is none ([ValueError]). *)
Fixpoint list_remove (x : ref) (l : list ref) : option (list ref) :=
  match l with
  | [] => None
  | y :: rest =>
      if Nat.eqb y x then Some rest
      else match list_remove x rest with
           | Some rest' => Some (y :: rest')
           | None => None
           end
  end.

Definition entries_remove (x : ref) : M unit :=
  fun s =>
    match list_remove x (entries s) with
    | Some l => (set_entries l s, Ok tt)
    | None => (s, Raise ValueError)
    end.

(** The second loop of [remove]. *)
Fixpoint remove_all (removal_list : list ref) : M unit :=
  match removal_list with
  | [] => ret tt
  | x :: rest => entries_remove x ;;; remove_all rest
  end.

(** [Hosts.remove] *)
Definition remove (entry : PyArg) : M bool :=
  s <- get_state ;;
  scan <- match entry with
          | PNone => ret ([], 0)
          | PStr EmptyString => ret ([], 0)
          | PStr (String _ _) =>
              match entries s with
              | [] => ret ([], 0)
              | _ :: _ => raise AttributeError
              end
          | PEntry r => ret (removal_scan (obj s) (obj s r) (entries s))
          end ;;
  remove_all (fst scan) ;;;
  write ;;;
  ret (Nat.ltb 0 (snd scan)).

Definition entries_append (r : ref) : M unit :=
  fun s => (set_entries (entries s ++ [r])%list s, Ok tt).

(** [Hosts.add] *)
Definition add (entry : PyArg) (force : bool) : M bool :=
  e <- resolve entry ;;
  match e with
  | None => raise AttributeError
  | Some r =>
      s <- get_state ;;
      let t := entry_type (obj s r) in
      dup <- (if entry_type_eqb t Comment then
                existing <- count (PEntry r) ;;
                ret (Nat.leb 1 (comment_matches existing))
              else ret false) ;;
      if dup then ret false
      else
        conflict <- (if is_address_type t then
                       existing <- count (PEntry r) ;;
                       if negb force &&
                          (negb (Nat.eqb (address_matches existing) 0)
                           || negb (Nat.eqb (name_matches existing) 0))
                       then ret true
                       else if force then remove (PEntry r) ;;; ret false
                       else ret false
                     else ret false) ;;
        if conflict then ret false
        else entries_append r ;;; write ;;; ret true
  end.

(** The body of the loop of [populate_entries]. *)
Definition load_line (hosts_entry : string) : M unit :=
  t <- lift_result (get_entry_type hosts_entry) ;;
  match t with
  | Some Comment =>
      r <- HostsEntry_init (Some "comment") None (Some hosts_entry) None ;;
      entries_append r
  | Some Blank =>
      r <- HostsEntry_init (Some "blank") None None None ;;
      entries_append r
  | Some t' =>
      match split hosts_entry with
      | [] => raise IndexError
      | chunk :: chunks =>
          r <- HostsEntry_init (Some (entry_type_name t'))
                               (Some chunk) None (Some chunks) ;;
          entries_append r
      end
  | None => ret tt
  end.

Fixpoint load_lines (hosts_entries : list string) : M unit :=
  match hosts_entries with
  | [] => ret tt
  | hosts_entry :: rest => load_line hosts_entry ;;; load_lines rest
  end.

(** [Hosts.populate_entries] *)
Definition populate_entries : M unit :=
  fun s =>
    match hosts_file s with
    | None => (s, Raise IOError)
    | Some content => load_lines (readlines content) s
    end.

(** [Hosts.__init__] for a given path. *)
Definition Hosts_init : M unit :=
  (fun s => (set_entries [] s, Ok tt)) ;;; populate_entries.

End Hosts.

(** ** Notions used to state the properties *)

Definition first_char (s : string) : option ascii :=
  match s with
  | EmptyString => None
  | String c _ => Some c
  end.

Definition starts_with (c : ascii) (s : string) : bool :=
  match s with
  | EmptyString => false
  | String c' _ => Ascii.eqb c' c
  end.

(** Every character of [s] is a newline (the empty string included). *)
Fixpoint newline_only (s : string) : bool :=
  match s with
  | EmptyString => true
  | String c s' => Ascii.eqb c nl && newline_only s'
  end.

(** [s] is a line as iterating over a file yields it: not empty, and with
    a newline at most as its last character. *)
Fixpoint is_line (s : string) : bool :=
  match s with
  | EmptyString => false
  | String c EmptyString => true
  | String c s' => negb (Ascii.eqb c nl) && is_line s'
  end.

(** [s] is a token: not empty and free of whitespace. *)
Fixpoint no_space (s : string) : bool :=
  match s with
  | EmptyString => true
  | String c s' => negb (is_space c) && no_space s'
  end.

Definition is_token (s : string) : bool :=
  match s with
  | EmptyString => false
  | String _ _ => no_space s
  end.

(** An entry that carries neither names nor comment text and has the
    blank kind. *)
Definition plain_blank (e : HostsEntry) : bool :=
  entry_type_eqb (entry_type e) Blank
  && negb (truthy_list (names e)) && negb (truthy_str (comment e)).

(** An entry of an address kind whose address is [a]. *)
Definition has_address (a : string) (e : HostsEntry) : bool :=
  is_address_type (entry_type e) && opt_str_eqb (address e) (Some a).

Section Notions.

Variable is_ipv4 : string -> bool.
Variable is_ipv6 : string -> bool.

(** The classification rule in the words of the specification: blank for
    an empty or newline-only line, else comment for a first character
    [#], else by the first token; [None] is the failure signal. *)
Definition classify_spec (line : string) : option EntryType :=
  if newline_only line then Some Blank
  else if starts_with hash line then Some Comment
  else match split line with
       | tok :: _ =>
           if is_ipv4 tok then Some Ipv4
           else if is_ipv6 tok then Some Ipv6
           else None
       | [] => None
       end.

(** What [__init__] guarantees of the attributes of an instance. *)
Definition entry_valid (e : HostsEntry) : bool :=
  match entry_type e with
  | Comment => truthy_str (comment e)
  | Blank => true
  | Ipv4 =>
      truthy_str (address e) && truthy_list (names e)
      && match address e with Some a => is_ipv4 a | None => false end
  | Ipv6 =>
      truthy_str (address e) && truthy_list (names e)
      && match address e with Some a => is_ipv6 a | None => false end
  end.

(** The validator of the family of an address kind, on an optional
    address. *)
Definition family_valid (t : EntryType) (a : option string) : bool :=
  match a with
  | None => false
  | Some x =>
      match t with
      | Ipv4 => is_ipv4 x
      | Ipv6 => is_ipv6 x
      | _ => true
      end
  end.

Definition invalid_address (t : EntryType) : PyErr :=
  match t with
  | Ipv6 => InvalidIPv6Address
  | _ => InvalidIPv4Address
  end.

(** The lines that serialization writes: a comment line, the blank line,
    or an address line [address<TAB>name1 name2 ...<newline>]. *)
Inductive serialized_line : string -> Prop :=
| serialized_comment : forall line,
    starts_with hash line = true -> serialized_line line
| serialized_blank : serialized_line NL
| serialized_address : forall a n ns,
    is_token a = true ->
    is_ipv4 a || is_ipv6 a = true ->
    Forall (fun x => is_token x = true) (n :: ns) ->
    serialized_line (a ++ TAB ++ join SP (n :: ns) ++ NL).

End Notions.

(** ** Validators used in examples *)

Module Utils.

Fixpoint split_on (sep : ascii) (s : string) : list string :=
  match s with
  | EmptyString => [EmptyString]
  | String c s' =>
      if Ascii.eqb c sep then EmptyString :: split_on sep s'
      else match split_on sep s' with
           | t :: ts => String c t :: ts
           | [] => [String c EmptyString]
           end
  end.

Definition is_digit (c : ascii) : bool :=
  let n := nat_of_ascii c in Nat.leb 48 n && Nat.leb n 57.

Definition is_hex (c : ascii) : bool :=
  let n := nat_of_ascii c in
  is_digit c || (Nat.leb 65 n && Nat.leb n 70)
  || (Nat.leb 97 n && Nat.leb n 102).

Definition is_alnum (c : ascii) : bool :=
  let n := nat_of_ascii c in
  is_digit c || (Nat.leb 65 n && Nat.leb n 90)
  || (Nat.leb 97 n && Nat.leb n 122).

Fixpoint all_chars (p : ascii -> bool) (s : string) : bool :=
  match s with
  | EmptyString => true
  | String c s' => p c && all_chars p s'
  end.

Fixpoint decimal (acc : nat) (s : string) : nat :=
  match s with
  | EmptyString => acc
  | String c s' => decimal (10 * acc + (nat_of_ascii c - 48)) s'
  end.

Definition is_octet (s : string) : bool :=
  Nat.leb 1 (String.length s) && Nat.leb (String.length s) 3
  && all_chars is_digit s && Nat.leb (decimal 0 s) 255.

(** Modelled from the spec: [utils.is_ipv4], a syntactic validator of
    IPv4 addresses; the module [utils] is not among the sources.  The
    model accepts four decimal octets separated by dots. *)
Definition is_ipv4 (s : string) : bool :=
  match split_on "."%char s with
  | [a; b; c; d] => is_octet a && is_octet b && is_octet c && is_octet d
  | _ => false
  end.

Definition is_group (s : string) : bool :=
  Nat.leb 1 (String.length s) && Nat.leb (String.length s) 4
  && all_chars is_hex s.

Definition is_empty (s : string) : bool :=
  match s with
  | EmptyString => true
  | _ => false
  end.

(** A leading or trailing [::] yields two empty groups at that end; one
    of them is dropped. *)
Definition drop_edge (l : list string) : list string :=
  match l with
  | EmptyString :: EmptyString :: rest => EmptyString :: rest
  | _ => l
  end.

(** Modelled from the spec: [utils.is_ipv6], a syntactic validator of
    IPv6 addresses; the module [utils] is not among the sources.  The
    model accepts eight groups of one to four hexadecimal digits
    separated by colons, or fewer groups with one [::]. *)
Definition is_ipv6 (s : string) : bool :=
  let groups := split_on ":"%char s in
  let inner := rev (drop_edge (rev (drop_edge groups))) in
  let gaps := List.length (filter is_empty inner) in
  let full := filter (fun g => negb (is_empty g)) inner in
  forallb is_group full
  && ((Nat.eqb gaps 0 && Nat.eqb (List.length full) 8)
      || (Nat.eqb gaps 1 && Nat.leb (List.length full) 7
          && Nat.leb 3 (List.length groups))).

Definition is_label (s : string) : bool :=
  Nat.leb 1 (String.length s) && Nat.leb (String.length s) 63
  && all_chars (fun c => is_alnum c || Ascii.eqb c "-"%char) s
  && negb (starts_with "-"%char s)
  && negb (starts_with "-"%char (string_of_list_ascii
                                   (rev (list_ascii_of_string s)))).

(** Modelled from the spec: [utils.valid_hostnames], a syntactic
    validator of a sequence of host names, all of which must be valid;
    the module [utils] is not among the sources.  The model accepts names
    of at most 255 characters made of dot-separated labels of letters,
    digits and inner hyphens. *)
Definition valid_hostnames (l : list string) : bool :=
  forallb (fun name =>
             Nat.leb (String.length name) 255
             && forallb is_label (split_on "."%char name)) l.

End Utils.

(** ** States used in examples *)

Definition no_entry : HostsEntry := mkEntry Blank None None None.

(** A state whose object store holds the instances [objs], numbered from
    0, whose collection is [ents], and whose file can be written. *)
Definition state_of (objs : list HostsEntry) (ents : list ref)
    (file : option string) : State :=
  mkState (List.length objs) (fun r => nth r objs no_entry) ents file true.

Definition lf (s : string) : string := s ++ NL.

(** A collection holding one comment, and a second comment instance with
    the same text that is not in the collection. *)
Definition note : HostsEntry :=
  mkEntry Comment None (Some (lf "# note")) None.

Definition comment_state : State :=
  state_of [note; note] [0] (Some (lf "# note")).

(** A file whose only line starts with a token that is no address. *)
Definition unparseable_state : State :=
  state_of [] [] (Some (lf "foo bar")).

(** A file whose only line separates address and name by a space. *)
Definition spaced_state : State :=
  state_of [] [] (Some (lf "127.0.0.1 localhost")).

(** A collection holding [127.0.0.1 localhost], and a second instance
    with the same address and another name that is not in the
    collection. *)
Definition localhost_state : State :=
  state_of [mkEntry Ipv4 (Some "127.0.0.1") None (Some ["localhost"]);
            mkEntry Ipv4 (Some "127.0.0.1") None (Some ["other"])]
           [0]
           (Some ("127.0.0.1" ++ TAB ++ lf "localhost")).

(** A file in serialized form: a comment, a blank line, an IPv4 line with
    two names and an IPv6 line. *)
Definition serialized_content : string :=
  lf "# hosts" ++ NL ++ "127.0.0.1" ++ TAB ++ lf "localhost loopback"
  ++ "::1" ++ TAB ++ lf "ip6-localhost".

Definition serialized_state : State :=
  state_of [] [] (Some serialized_content).

(** No collection yet, and no file. *)
Definition empty_state : State := state_of [] [] None.

(** The attributes that [populate_entries] and [str_to_hostentry] give
    an instance of each kind: a comment has its text only, a blank entry
    has nothing, an address entry has an address and names only. *)
Definition variant_shaped (e : HostsEntry) : bool :=
  match entry_type e with
  | Comment =>
      truthy_str (comment e)
      && match address e, names e with None, None => true | _, _ => false end
  | Blank =>
      match address e, comment e, names e with
      | None, None, None => true
      | _, _, _ => false
      end
  | Ipv4 | Ipv6 =>
      truthy_str (address e) && truthy_list (names e)
      && match comment e with None => true | Some _ => false end
  end.

(** The state after an instance with the attributes [e] has been
    allocated and appended to the collection. *)
Definition append_new (e : HostsEntry) (s : State) : State :=
  set_entries (entries s ++ [next_ref s])%list (alloc_state e s).

(** The names of an entry, none when the attribute is [None]. *)
Definition names_list (e : HostsEntry) : list string :=
  match names e with
  | Some l => l
  | None => []
  end.

(** [s] has no newline. *)
Fixpoint no_newline (s : string) : bool :=
  match s with
  | EmptyString => true
  | String c s' => negb (Ascii.eqb c nl) && no_newline s'
  end.

(** [s] ends with a newline and has no other newline. *)
Fixpoint terminated (s : string) : bool :=
  match s with
  | EmptyString => false
  | String c EmptyString => Ascii.eqb c nl
  | String c s' => negb (Ascii.eqb c nl) && terminated s'
  end.

Section Reloadable.

Variable is_ipv4 : string -> bool.
Variable is_ipv6 : string -> bool.

(** The entries that a load of their own serialization builds again: a
    comment whose text is one line, starting with [#] and ending with
    its newline; a blank entry; an address entry whose address and names
    are tokens, whose address does not start with [#] and is classified
    in the family of the entry ([is_ipv4] is tried first).  No entry
    carries attributes of another kind. *)
Definition reloadable (e : HostsEntry) : bool :=
  match entry_type e, address e, comment e, names e with
  | Comment, None, Some c, None => starts_with hash c && terminated c
  | Blank, None, None, None => true
  | Ipv4, Some a, None, Some (n :: ns) =>
      is_token a && negb (starts_with hash a) && is_ipv4 a
      && forallb is_token (n :: ns)
  | Ipv6, Some a, None, Some (n :: ns) =>
      is_token a && negb (starts_with hash a)
      && negb (is_ipv4 a) && is_ipv6 a
      && forallb is_token (n :: ns)
  | _, _, _, _ => false
  end.

End Reloadable.

(** A collection holding [127.0.0.1 localhost], the comment [# note] and
    a blank entry; the object store also holds [10.0.0.1 router], which
    conflicts with nothing, and [10.0.0.2 localhost], which shares a name
    with the first entry. *)
Definition sample_state : State :=
  state_of [mkEntry Ipv4 (Some "127.0.0.1") None (Some ["localhost"]);
            mkEntry Ipv4 (Some "10.0.0.1") None (Some ["router"]);
            note;
            no_entry;
            mkEntry Ipv4 (Some "10.0.0.2") None (Some ["localhost"])]
           [0; 2; 3]
           (Some ("127.0.0.1" ++ TAB ++ lf "localhost" ++ lf "# note" ++ NL)).

(** A collection whose only entry has an address, a name and comment
    text at once, as the constructor allows. *)
Definition tagged_state : State :=
  state_of [mkEntry Ipv4 (Some "10.0.0.9") (Some "# nine") (Some ["nine"])]
           [0] None.

(** * Properties *)

(** ** The string functions on examples *)

Example split_example :
  split ("  10.0.0.1" ++ TAB ++ "a  b " ++ NL) = ["10.0.0.1"; "a"; "b"].
Proof. reflexivity. Qed.

Example split_blank_example : split (" " ++ TAB ++ NL) = [].
Proof. reflexivity. Qed.

Example strip_example : strip (TAB ++ " a b  " ++ NL) = "a b".
Proof. reflexivity. Qed.

Example join_example : join SP ["a"; "b"; "c"] = "a b c".
Proof. reflexivity. Qed.

Example readlines_example :
  readlines (lf "a" ++ NL ++ "b") = [lf "a"; NL; "b"].
Proof. reflexivity. Qed.

Example list_remove_example :
  list_remove 1 [0; 1; 2; 1] = Some [0; 2; 1] /\ list_remove 3 [0; 1] = None.
Proof. split; reflexivity. Qed.

Section Properties.

Variable is_ipv4 : string -> bool.
Variable is_ipv6 : string -> bool.
Variable valid_hostnames : list string -> bool.

(** ** The constructor *)

Lemma parse_entry_type_name (t : EntryType) :
  parse_entry_type (entry_type_name t) = Some t.
Proof. destruct t; reflexivity. Qed.

(** C8: constructing an ipv4 or ipv6 entry raises the generic
    missing-fields exception when the address or the names are missing or
    empty, else the invalid-address exception of the family when the
    address fails its validator, and only otherwise allocates the
    instance; the three exceptions are distinct, and a failed
    construction leaves the state, hence the object store, as it was. *)
Theorem init_address_entry_failures :
  forall (t : EntryType) (address0 comment0 : option string)
         (names0 : option (list string)) (s : State),
    is_address_type t = true ->
    HostsEntry_init is_ipv4 is_ipv6 (Some (entry_type_name t))
                    address0 comment0 names0 s
    = (if truthy_str address0 && truthy_list names0 then
         if family_valid is_ipv4 is_ipv6 t address0 then
           (alloc_state (mkEntry t address0 comment0 names0) s,
            Ok (next_ref s))
         else (s, Raise (invalid_address t))
       else (s, Raise missing_fields))
    /\ missing_fields <> InvalidIPv4Address
    /\ missing_fields <> InvalidIPv6Address
    /\ InvalidIPv4Address <> InvalidIPv6Address.
Proof.
  intros t address0 comment0 names0 s Ht.
  split; [| repeat split; discriminate].
  unfold HostsEntry_init. rewrite parse_entry_type_name.
  destruct t; try discriminate Ht; simpl;
    unfold bind, ret, raise, check_address;
    destruct address0 as [[|c a]|]; simpl; try reflexivity;
    destruct names0 as [[|n ns]|]; simpl; try reflexivity.
  - destruct (is_ipv4 (String c a)); reflexivity.
  - destruct (is_ipv6 (String c a)); reflexivity.
Qed.

(** ** Classification *)

Lemma is_line_newline_first (s : string) :
  is_line (String nl s) = true -> s = EmptyString.
Proof.
  destruct s as [|c s]; [reflexivity | simpl; discriminate].
Qed.

(** C5, amended: on every line as a file read yields it (not empty, a
    newline at most at its end) that is the newline alone, starts with
    [#], or contains a character that is not whitespace, classification
    returns, and returns what the rule says: blank for the newline-only
    line, else comment for a first character [#], else ipv4 or ipv6 by the
    first token, else the failure signal. *)
Theorem get_entry_type_follows_rule :
  forall line : string,
    is_line line = true ->
    line = NL \/ starts_with hash line = true \/ split line <> [] ->
    get_entry_type is_ipv4 is_ipv6 line
    = Ok (classify_spec is_ipv4 is_ipv6 line).
Proof.
  intros line Hline Hcase.
  destruct line as [|c s]; [discriminate Hline |].
  unfold get_entry_type, classify_spec.
  destruct (Ascii.eqb c hash) eqn:Hhash.
  - apply Ascii.eqb_eq in Hhash. subst c. reflexivity.
  - destruct (Ascii.eqb c nl) eqn:Hnl.
    + apply Ascii.eqb_eq in Hnl. subst c.
      apply is_line_newline_first in Hline. subst s. reflexivity.
    + assert (Hno : newline_only (String c s) = false)
        by (simpl; rewrite Hnl; reflexivity).
      rewrite Hno.
      assert (Hst : starts_with hash (String c s) = false)
        by (simpl; exact Hhash).
      rewrite Hst.
      destruct Hcase as [Heq | [Hc | Hsplit]].
      * inversion Heq. subst c. rewrite Ascii.eqb_refl in Hnl.
        discriminate Hnl.
      * rewrite Hst in Hc. discriminate Hc.
      * destruct (split (String c s)) as [|tok toks]; [contradiction |].
        destruct (is_ipv4 tok); [reflexivity |].
        destruct (is_ipv6 tok); reflexivity.
Qed.

(** ** Loading *)

Lemma load_lines_app (l1 l2 : list string) (s : State) :
  load_lines is_ipv4 is_ipv6 (l1 ++ l2)%list s
  = (load_lines is_ipv4 is_ipv6 l1 ;;; load_lines is_ipv4 is_ipv6 l2) s.
Proof.
  revert s. induction l1 as [|x l1 IH]; intro s.
  - reflexivity.
  - simpl. unfold bind.
    destruct (load_line is_ipv4 is_ipv6 x s) as [s1 [[]|e]].
    + rewrite IH. reflexivity.
    + reflexivity.
Qed.

Lemma load_line_unclassified (line tok : string) (rest : list string)
    (s : State) :
  starts_with hash line = false ->
  starts_with nl line = false ->
  split line = tok :: rest ->
  is_ipv4 tok = false ->
  is_ipv6 tok = false ->
  load_line is_ipv4 is_ipv6 line s = (s, Ok tt).
Proof.
  intros Hh Hn Hs H4 H6.
  unfold load_line, bind, lift_result, get_entry_type.
  destruct line as [|c l]; [discriminate Hs |].
  simpl in Hh, Hn. rewrite Hh, Hn, Hs, H4, H6. reflexivity.
Qed.

(** C3, amended: a line of the file that starts neither with [#] nor with
    a newline and whose first token is neither a valid IPv4 nor a valid
    IPv6 address is skipped by the load: the load proceeds exactly as on
    the file without that line, and stores no entry for it. *)
Theorem load_skips_unclassified_line :
  forall (content line tok : string) (l1 l2 rest : list string) (s : State),
    hosts_file s = Some content ->
    readlines content = (l1 ++ line :: l2)%list ->
    starts_with hash line = false ->
    starts_with nl line = false ->
    split line = tok :: rest ->
    is_ipv4 tok = false ->
    is_ipv6 tok = false ->
    populate_entries is_ipv4 is_ipv6 s
    = load_lines is_ipv4 is_ipv6 (l1 ++ l2)%list s.
Proof.
  intros content line tok l1 l2 rest s Hf Hr Hh Hn Hs H4 H6.
  unfold populate_entries. rewrite Hf, Hr.
  rewrite !load_lines_app. unfold bind.
  destruct (load_lines is_ipv4 is_ipv6 l1 s) as [s1 [[]|e]];
    [| reflexivity].
  simpl. unfold bind at 1.
  rewrite (load_line_unclassified line tok rest s1 Hh Hn Hs H4 H6).
  reflexivity.
Qed.

(** ** Counting and rejected additions *)

Lemma count_address_mono (e : HostsEntry) (l : list HostsEntry) (c : Counts) :
  address_matches c <= address_matches (fold_left (count_step e) l c).
Proof.
  revert c. induction l as [|h l IH]; intro c; simpl.
  - apply Nat.le_refl.
  - eapply Nat.le_trans; [| apply IH]. simpl. apply Nat.le_add_r.
Qed.

Lemma count_comment_mono (e : HostsEntry) (l : list HostsEntry) (c : Counts) :
  comment_matches c <= comment_matches (fold_left (count_step e) l c).
Proof.
  revert c. induction l as [|h l IH]; intro c; simpl.
  - apply Nat.le_refl.
  - eapply Nat.le_trans; [| apply IH]. simpl. apply Nat.le_add_r.
Qed.

Lemma count_address_hit (e host : HostsEntry) (l : list HostsEntry)
    (c : Counts) :
  In host l ->
  is_address_type (entry_type e) = true ->
  truthy_str (address host) = true ->
  opt_str_eqb (address host) (address e) = true ->
  address_matches c < address_matches (fold_left (count_step e) l c).
Proof.
  intros Hin Ht Ha He. revert c.
  induction l as [|h l IH]; intro c; [contradiction |].
  simpl. destruct Hin as [-> | Hin].
  - eapply Nat.lt_le_trans; [| apply count_address_mono].
    simpl. rewrite Ht, Ha, He. simpl. lia.
  - eapply Nat.le_lt_trans; [| apply (IH Hin)]. simpl. lia.
Qed.

Lemma count_comment_hit (e host : HostsEntry) (l : list HostsEntry)
    (c : Counts) :
  In host l ->
  entry_type e = Comment ->
  opt_str_eqb (comment host) (comment e) = true ->
  comment_matches c < comment_matches (fold_left (count_step e) l c).
Proof.
  intros Hin Ht He. revert c.
  induction l as [|h l IH]; intro c; [contradiction |].
  simpl. destruct Hin as [-> | Hin].
  - eapply Nat.lt_le_trans; [| apply count_comment_mono].
    simpl. rewrite Ht, He. simpl. lia.
  - eapply Nat.le_lt_trans; [| apply (IH Hin)]. simpl. lia.
Qed.

Lemma opt_str_eqb_refl (a : option string) : opt_str_eqb a a = true.
Proof. destruct a as [x|]; simpl; [apply String.eqb_refl | reflexivity]. Qed.

Lemma valid_address_truthy (e : HostsEntry) :
  is_address_type (entry_type e) = true ->
  entry_valid is_ipv4 is_ipv6 e = true ->
  truthy_str (address e) = true /\ truthy_list (names e) = true.
Proof.
  unfold entry_valid. intros Ht Hv.
  destruct (entry_type e); try discriminate Ht;
    apply andb_prop in Hv; destruct Hv as [Hv _];
    apply andb_prop in Hv; exact Hv.
Qed.

(** C6: when the collection holds an ipv4 or ipv6 entry with the address
    of the ipv4 or ipv6 entry passed to [add], and [force] is false, [add]
    returns false and changes nothing, whatever the names of the two
    entries are. *)
Theorem add_same_address_rejected :
  forall (s : State) (r x : ref) (a : string),
    is_address_type (entry_type (obj s r)) = true ->
    address (obj s r) = Some a ->
    In x (entries s) ->
    is_address_type (entry_type (obj s x)) = true ->
    entry_valid is_ipv4 is_ipv6 (obj s x) = true ->
    address (obj s x) = Some a ->
    add is_ipv4 is_ipv6 valid_hostnames (PEntry r) false s = (s, Ok false).
Proof.
  intros s r x a Hr Har Hin Hx Hv Hax.
  assert (Hlt : 0 < address_matches
                      (count_entry (obj s r) (entry_values s))).
  { assert (He : opt_str_eqb (address (obj s x)) (address (obj s r)) = true)
      by (rewrite Hax, Har; apply opt_str_eqb_refl).
    exact (count_address_hit (obj s r) (obj s x) (entry_values s)
             (mkCounts 0 0 0) (in_map (obj s) _ _ Hin) Hr
             (proj1 (valid_address_truthy (obj s x) Hx Hv)) He). }
  unfold add, resolve, count, resolve, bind, ret, get_state. simpl.
  assert (Hc : entry_type_eqb (entry_type (obj s r)) Comment = false)
    by (destruct (entry_type (obj s r)); try discriminate Hr; reflexivity).
  rewrite Hc, Hr. simpl.
  destruct (address_matches (count_entry (obj s r) (entry_values s)));
    [lia | reflexivity].
Qed.

(** C9: when the collection holds a comment entry with the text of the
    comment entry passed to [add], [add] returns false and changes
    nothing, so the entries sequence keeps its length. *)
Theorem add_duplicate_comment_rejected :
  forall (s : State) (r x : ref) (c : string) (force : bool),
    entry_type (obj s r) = Comment ->
    comment (obj s r) = Some c ->
    In x (entries s) ->
    entry_type (obj s x) = Comment ->
    comment (obj s x) = Some c ->
    add is_ipv4 is_ipv6 valid_hostnames (PEntry r) force s = (s, Ok false)
    /\ List.length (entries (fst (add is_ipv4 is_ipv6 valid_hostnames
                                      (PEntry r) force s)))
       = List.length (entries s).
Proof.
  intros s r x c force Hr Hcr Hin Hx Hcx.
  assert (Hlt : 0 < comment_matches
                      (count_entry (obj s r) (entry_values s))).
  { assert (He : opt_str_eqb (comment (obj s x)) (comment (obj s r)) = true)
      by (rewrite Hcx, Hcr; apply opt_str_eqb_refl).
    exact (count_comment_hit (obj s r) (obj s x) (entry_values s)
             (mkCounts 0 0 0) (in_map (obj s) _ _ Hin) Hr He). }
  assert (Hadd : add is_ipv4 is_ipv6 valid_hostnames (PEntry r) force s
                 = (s, Ok false)).
  { unfold add, resolve, count, resolve, bind, ret, get_state. simpl.
    rewrite Hr. simpl.
    destruct (comment_matches (count_entry (obj s r) (entry_values s)));
      [lia | reflexivity]. }
  split; [exact Hadd | rewrite Hadd; reflexivity].
Qed.

(** ** Removal *)

Lemma list_remove_keeps (q : ref -> bool) (x : ref) (l l' : list ref) :
  list_remove x l = Some l' ->
  q x = false ->
  filter q l' = filter q l.
Proof.
  revert l'. induction l as [|y l IH]; intros l' Hrm Hq; simpl in Hrm.
  - discriminate Hrm.
  - destruct (Nat.eqb y x) eqn:Hyx.
    + apply Nat.eqb_eq in Hyx. subst y. inversion Hrm. subst l'.
      simpl. rewrite Hq. reflexivity.
    + destruct (list_remove x l) as [rest|]; [| discriminate Hrm].
      inversion Hrm. subst l'. simpl. rewrite (IH rest eq_refl Hq).
      reflexivity.
Qed.

Lemma remove_all_keeps (q : ref -> bool) (rl : list ref) (s : State) :
  (forall x, In x rl -> q x = false) ->
  obj (fst (remove_all rl s)) = obj s
  /\ writable (fst (remove_all rl s)) = writable s
  /\ filter q (entries (fst (remove_all rl s))) = filter q (entries s).
Proof.
  revert s. induction rl as [|x rl IH]; intros s Hq.
  - simpl. repeat split.
  - simpl. unfold bind, entries_remove.
    destruct (list_remove x (entries s)) as [l|] eqn:Hrm.
    + assert (Hrest : forall y, In y rl -> q y = false)
        by (intros y Hy; apply Hq; right; exact Hy).
      destruct (IH (set_entries l s) Hrest) as [Ho [Hw Hf]].
      destruct (remove_all rl (set_entries l s)) as [s1 [[]|e]];
        simpl in *; rewrite Ho, Hw, Hf;
        rewrite (list_remove_keeps q x (entries s) l Hrm
                   (Hq x (or_introl eq_refl)));
        repeat split.
    + simpl. repeat split.
Qed.

Lemma write_frame (s : State) :
  obj (fst (write s)) = obj s
  /\ entries (fst (write s)) = entries s.
Proof.
  unfold write. destruct (writable s); [| split; reflexivity].
  destruct (write_lines (entry_values s) EmptyString) as [out r].
  split; reflexivity.
Qed.

Lemma removal_scan_in (o : ref -> HostsEntry) (e : HostsEntry)
    (l : list ref) (x : ref) :
  In x (fst (removal_scan o e l)) ->
  names_match e (o x) = true \/ comment_match e (o x) = true.
Proof.
  induction l as [|y l IH]; simpl; [contradiction |].
  destruct (removal_scan o e l) as [rl n]. simpl in *.
  intro Hin. apply in_app_or in Hin. destruct Hin as [Hin | Hin].
  - destruct (names_match e (o y)) eqn:Hm; [| contradiction].
    destruct Hin as [-> | []]. left. exact Hm.
  - apply in_app_or in Hin. destruct Hin as [Hin | Hin].
    + destruct (comment_match e (o y)) eqn:Hm; [| contradiction].
      destruct Hin as [-> | []]. right. exact Hm.
    + apply IH. exact Hin.
Qed.

Lemma plain_blank_unmatched (e h : HostsEntry) :
  plain_blank h = true ->
  names_match e h = false /\ comment_match e h = false.
Proof.
  unfold plain_blank, names_match, comment_match. intro Hb.
  apply andb_prop in Hb. destruct Hb as [Hb Hc].
  apply andb_prop in Hb. destruct Hb as [_ Hn].
  apply negb_true_iff in Hn. apply negb_true_iff in Hc.
  rewrite Hn. split; [reflexivity |].
  destruct (comment e) as [[|c ce]|]; simpl; try reflexivity.
  destruct (comment h) as [[|d ch]|]; simpl; try reflexivity.
  discriminate Hc.
Qed.

(** C10: after a call of [remove], whatever its argument and whether it
    returns or raises, the entries of the blank kind that carry neither
    names nor comment text are those that were there before, in the same
    order, and no instance has changed. *)
Theorem remove_keeps_blank_entries :
  forall (entry : PyArg) (s : State),
    obj (fst (remove entry s)) = obj s
    /\ filter (fun x => plain_blank (obj s x)) (entries (fst (remove entry s)))
       = filter (fun x => plain_blank (obj s x)) (entries s).
Proof.
  intros entry s.
  set (q := fun x => plain_blank (obj s x)).
  assert (Hmain : forall rl n,
    (forall x, In x rl -> q x = false) ->
    obj (fst ((remove_all rl ;;; write ;;; ret (Nat.ltb 0 n)) s)) = obj s
    /\ filter q (entries (fst ((remove_all rl ;;; write ;;;
                                ret (Nat.ltb 0 n)) s)))
       = filter q (entries s)).
  { intros rl n Hq.
    destruct (remove_all_keeps q rl s Hq) as [Ho [_ Hf]].
    unfold bind.
    destruct (remove_all rl s) as [s1 [[]|e]]; simpl in *;
      [| split; assumption].
    destruct (write_frame s1) as [Ho1 He1].
    destruct (write s1) as [s2 [[]|e]]; simpl in *;
      rewrite Ho1, He1; split; assumption. }
  assert (Hnil : forall x : ref, In x [] -> q x = false)
    by (intros x []).
  destruct entry as [|str|r].
  - change (remove PNone s)
      with ((remove_all [] ;;; write ;;; ret (Nat.ltb 0 0)) s).
    apply Hmain. exact Hnil.
  - destruct str as [|c str].
    + change (remove (PStr EmptyString) s)
        with ((remove_all [] ;;; write ;;; ret (Nat.ltb 0 0)) s).
      apply Hmain. exact Hnil.
    + assert (Hstr :
        remove (PStr (String c str)) s
        = (remove_all [] ;;; write ;;; ret (Nat.ltb 0 0)) s
        \/ remove (PStr (String c str)) s = (s, Raise AttributeError)).
      { clear Hmain. unfold remove, bind, get_state. cbv beta.
        destruct (entries s); [left | right]; reflexivity. }
      destruct Hstr as [-> | ->].
      * apply Hmain. exact Hnil.
      * split; reflexivity.
  - change (remove (PEntry r) s)
      with ((remove_all (fst (removal_scan (obj s) (obj s r) (entries s)))
             ;;; write ;;;
             ret (Nat.ltb 0 (snd (removal_scan (obj s) (obj s r)
                                    (entries s))))) s).
    apply Hmain. intros x Hin.
    apply removal_scan_in in Hin.
    destruct (q x) eqn:Hqx; [| reflexivity].
    destruct (plain_blank_unmatched (obj s r) (obj s x) Hqx) as [Hn Hc].
    rewrite Hn, Hc in Hin. destruct Hin; discriminate.
Qed.

(** ** Forced additions *)

Lemma removal_scan_no_comment (o : ref -> HostsEntry) (e : HostsEntry)
    (l : list ref) :
  truthy_str (comment e) = false ->
  removal_scan o e l
  = (filter (fun x => names_match e (o x)) l,
     List.length (filter (fun x => names_match e (o x)) l)).
Proof.
  intro Hc. induction l as [|x l IH]; [reflexivity |].
  simpl. rewrite IH. unfold comment_match. rewrite Hc. simpl.
  destruct (names_match e (o x)); reflexivity.
Qed.

Lemma list_remove_skip (x : ref) (k l : list ref) :
  (forall y, In y k -> y <> x) ->
  list_remove x (k ++ x :: l)%list = Some (k ++ l)%list.
Proof.
  induction k as [|y k IH]; intro Hk; simpl.
  - rewrite Nat.eqb_refl. reflexivity.
  - destruct (Nat.eqb y x) eqn:Hyx.
    + apply Nat.eqb_eq in Hyx. exfalso.
      apply (Hk y (or_introl eq_refl)). exact Hyx.
    + rewrite IH; [reflexivity |].
      intros z Hz. apply Hk. right. exact Hz.
Qed.

Lemma filter_none (f : ref -> bool) (l : list ref) :
  (forall x, In x l -> f x = false) -> filter f l = [].
Proof.
  induction l as [|x l IH]; intro Hf; [reflexivity |].
  simpl. rewrite (Hf x (or_introl eq_refl)).
  apply IH. intros y Hy. apply Hf. right. exact Hy.
Qed.

Lemma set_entries_same (s : State) : set_entries (entries s) s = s.
Proof. destruct s; reflexivity. Qed.

Lemma remove_all_filter (p : ref -> bool) (l k : list ref) (s : State) :
  (forall y, In y k -> p y = false) ->
  entries s = (k ++ l)%list ->
  remove_all (filter p l) s
  = (set_entries (k ++ filter (fun x => negb (p x)) l)%list s, Ok tt).
Proof.
  revert k s. induction l as [|x l IH]; intros k s Hk Hent.
  - simpl. unfold ret. rewrite <- Hent, set_entries_same. reflexivity.
  - simpl. destruct (p x) eqn:Hpx; simpl.
    + unfold bind, entries_remove. rewrite Hent.
      rewrite list_remove_skip.
      * rewrite (IH k (set_entries (k ++ l)%list s) Hk eq_refl).
        reflexivity.
      * intros y Hy Heq. subst y. rewrite (Hk x Hy) in Hpx.
        discriminate Hpx.
    + rewrite (IH (k ++ [x])%list s).
      * rewrite <- app_assoc. reflexivity.
      * intros y Hy. apply in_app_or in Hy.
        destruct Hy as [Hy | [-> | []]]; [apply Hk; exact Hy | exact Hpx].
      * rewrite <- app_assoc. exact Hent.
Qed.

Lemma entry_text_valid (e : HostsEntry) :
  entry_valid is_ipv4 is_ipv6 e = true ->
  exists t, entry_text e = Ok t.
Proof.
  unfold entry_valid, entry_text. intro Hv.
  destruct (entry_type e).
  - destruct (comment e) as [c|]; [eexists; reflexivity | discriminate Hv].
  - eexists; reflexivity.
  - apply andb_prop in Hv. destruct Hv as [Hv _].
    apply andb_prop in Hv. destruct Hv as [_ Hn].
    destruct (names e) as [ns|]; [eexists; reflexivity | discriminate Hn].
  - apply andb_prop in Hv. destruct Hv as [Hv _].
    apply andb_prop in Hv. destruct Hv as [_ Hn].
    destruct (names e) as [ns|]; [eexists; reflexivity | discriminate Hn].
Qed.

Lemma write_lines_valid (l : list HostsEntry) (out : string) :
  Forall (fun e => entry_valid is_ipv4 is_ipv6 e = true) l ->
  exists out', write_lines l out = (out', Ok tt).
Proof.
  intro Hl. revert out. induction Hl as [|e l He _ IH]; intro out; simpl.
  - eexists; reflexivity.
  - destruct (entry_text_valid e He) as [t ->]. apply IH.
Qed.

Lemma write_valid (s : State) :
  writable s = true ->
  Forall (fun x => entry_valid is_ipv4 is_ipv6 (obj s x) = true)
         (entries s) ->
  exists out, write s = (set_hosts_file (Some out) s, Ok tt).
Proof.
  intros Hw Hv. unfold write. rewrite Hw.
  destruct (write_lines_valid (entry_values s) EmptyString) as [out ->].
  - unfold entry_values. apply Forall_map. exact Hv.
  - exists out. reflexivity.
Qed.

(** Removal of an entry without comment text from a collection of valid
    entries: the entries its first condition selects are dropped. *)
Lemma remove_no_comment (s : State) (r : ref) :
  truthy_str (comment (obj s r)) = false ->
  writable s = true ->
  Forall (fun x => entry_valid is_ipv4 is_ipv6 (obj s x) = true)
         (entries s) ->
  exists out,
    remove (PEntry r) s
    = (set_hosts_file (Some out)
         (set_entries
            (filter (fun x => negb (names_match (obj s r) (obj s x)))
                    (entries s)) s),
       Ok (Nat.ltb 0 (List.length
                        (filter (fun x => names_match (obj s r) (obj s x))
                                (entries s))))).
Proof.
  intros Hc Hw Hv.
  set (kept := filter (fun x => negb (names_match (obj s r) (obj s x)))
                      (entries s)).
  destruct (write_valid (set_entries kept s)) as [out Hout].
  - exact Hw.
  - simpl. unfold kept. apply Forall_forall. intros x Hx.
    apply filter_In in Hx. destruct Hx as [Hx _].
    rewrite Forall_forall in Hv. apply Hv. exact Hx.
  - exists out.
    unfold remove, bind, get_state, ret.
    rewrite (removal_scan_no_comment (obj s) (obj s r) (entries s) Hc).
    simpl fst. simpl snd.
    rewrite (remove_all_filter
               (fun x => names_match (obj s r) (obj s x))
               (entries s) [] s (fun y (H : In y []) => match H with end)
               eq_refl).
    simpl app. fold kept. rewrite Hout. reflexivity.
Qed.

(** C7: [add] with [force] of an ipv4 or ipv6 entry (an entry that
    carries no comment text) to a collection of valid entries whose file
    can be written returns true; the entries that [remove] selects for
    the new entry are dropped, among them every ipv4 or ipv6 entry with
    the address of the new entry, the new entry is appended at the end,
    and the collection then holds exactly one ipv4 or ipv6 entry with
    that address. *)
Theorem add_force_replaces :
  forall (s : State) (r : ref) (a : string),
    is_address_type (entry_type (obj s r)) = true ->
    entry_valid is_ipv4 is_ipv6 (obj s r) = true ->
    address (obj s r) = Some a ->
    truthy_str (comment (obj s r)) = false ->
    Forall (fun x => entry_valid is_ipv4 is_ipv6 (obj s x) = true)
           (entries s) ->
    writable s = true ->
    exists s' : State,
      add is_ipv4 is_ipv6 valid_hostnames (PEntry r) true s = (s', Ok true)
      /\ obj s' = obj s
      /\ entries s'
         = (filter (fun x => negb (names_match (obj s r) (obj s x)))
                   (entries s) ++ [r])%list
      /\ (forall x, In x (entries s) ->
                    has_address a (obj s x) = true ->
                    names_match (obj s r) (obj s x) = true)
      /\ List.length (filter (fun x => has_address a (obj s' x))
                             (entries s')) = 1.
Proof.
  intros s r a Ht Hvr Har Hc Hv Hw.
  set (kept := filter (fun x => negb (names_match (obj s r) (obj s x)))
                      (entries s)).
  destruct (valid_address_truthy (obj s r) Ht Hvr) as [_ Hnr].
  assert (Hconf : forall x, In x (entries s) ->
                    has_address a (obj s x) = true ->
                    names_match (obj s r) (obj s x) = true).
  { intros x Hx Hax. unfold has_address in Hax.
    apply andb_prop in Hax. destruct Hax as [Hxt Hxa].
    rewrite Forall_forall in Hv.
    destruct (valid_address_truthy (obj s x) Hxt (Hv x Hx)) as [_ Hnx].
    unfold names_match. rewrite Hnx, Hnr, Har, Hxa. reflexivity. }
  destruct (remove_no_comment s r Hc Hw Hv) as [out1 Hrm].
  fold kept in Hrm.
  assert (Hv2 : Forall (fun x => entry_valid is_ipv4 is_ipv6 (obj s x) = true)
                       (kept ++ [r])%list).
  { apply Forall_app. split.
    - apply Forall_forall. intros x Hx. unfold kept in Hx.
      apply filter_In in Hx. destruct Hx as [Hx _].
      rewrite Forall_forall in Hv. apply Hv. exact Hx.
    - constructor; [exact Hvr | constructor]. }
  destruct (write_valid
              (set_entries (kept ++ [r])%list
                 (set_hosts_file (Some out1) (set_entries kept s))))
    as [out2 Hout2]; [exact Hw | exact Hv2 |].
  exists (set_hosts_file (Some out2)
            (set_entries (kept ++ [r])%list
               (set_hosts_file (Some out1) (set_entries kept s)))).
  assert (Hnc : entry_type_eqb (entry_type (obj s r)) Comment = false)
    by (destruct (entry_type (obj s r)); try discriminate Ht; reflexivity).
  split; [| split; [reflexivity | split; [reflexivity | split]]].
  - unfold add, resolve, count, resolve, bind, ret, get_state,
      entries_append.
    cbv beta. rewrite Hnc, Ht. cbn [negb andb]. cbv beta.
    rewrite Hrm. cbv iota. cbv beta. cbn [entries set_entries set_hosts_file].
    rewrite Hout2. reflexivity.
  - exact Hconf.
  - simpl. rewrite filter_app, length_app. simpl.
    assert (Hra : has_address a (obj s r) = true).
    { unfold has_address. rewrite Ht, Har. simpl. apply String.eqb_refl. }
    rewrite Hra. simpl.
    assert (Hnone : filter (fun x => has_address a (obj s x)) kept = []).
    { apply filter_none. intros x Hx.
      destruct (has_address a (obj s x)) eqn:Hax; [| reflexivity].
      unfold kept in Hx. apply filter_In in Hx. destruct Hx as [Hx Hneg].
      rewrite (Hconf x Hx Hax) in Hneg. discriminate Hneg. }
    rewrite Hnone. reflexivity.
Qed.

(** ** Loading and writing back *)

Lemma str_app_assoc (a b c : string) : (a ++ b) ++ c = a ++ (b ++ c).
Proof.
  induction a as [|x a IH]; simpl; [reflexivity | rewrite IH; reflexivity].
Qed.

Lemma str_app_nil_r (a : string) : a ++ EmptyString = a.
Proof.
  induction a as [|x a IH]; simpl; [reflexivity | rewrite IH; reflexivity].
Qed.

Lemma concat_readlines (content : string) :
  concat_str (readlines content) = content.
Proof.
  induction content as [|c content IH]; [reflexivity |].
  simpl. destruct (Ascii.eqb c nl).
  - simpl. fold (concat_str (readlines content)). rewrite IH. reflexivity.
  - destruct (readlines content) as [|l ls].
    + simpl in *. rewrite <- IH. reflexivity.
    + simpl in *. rewrite IH. reflexivity.
Qed.

Lemma split_token_space (a rest : string) (c : ascii) :
  is_token a = true ->
  is_space c = true ->
  split (a ++ String c rest) = a :: split rest.
Proof.
  intros Ha Hc. induction a as [|x a IH]; [discriminate Ha |].
  simpl in Ha. apply andb_prop in Ha. destruct Ha as [Hx Ha].
  apply negb_true_iff in Hx.
  destruct a as [|y a].
  - simpl. rewrite Hx, Hc. reflexivity.
  - change (split (String x (String y a ++ String c rest))
            = String x (String y a) :: split rest).
    assert (Hy : is_space y = false).
    { simpl in Ha. apply andb_prop in Ha. destruct Ha as [Hy _].
      apply negb_true_iff in Hy. exact Hy. }
    assert (Hrec : split (String y a ++ String c rest)
                   = String y a :: split rest) by (apply IH; exact Ha).
    simpl. simpl in Hrec. rewrite Hx, Hy. rewrite Hy in Hrec.
    rewrite Hrec. reflexivity.
Qed.

Lemma split_join_line (n : string) (ns : list string) :
  Forall (fun x => is_token x = true) (n :: ns) ->
  split (join SP (n :: ns) ++ NL) = n :: ns.
Proof.
  revert n. induction ns as [|m ns IH]; intros n Hall.
  - inversion Hall as [|? ? Hn _]. subst.
    simpl join. unfold NL.
    rewrite (split_token_space n EmptyString nl Hn eq_refl). reflexivity.
  - inversion Hall as [|? ? Hn Hrest]. subst.
    change (join SP (n :: m :: ns)) with (n ++ SP ++ join SP (m :: ns)).
    rewrite !str_app_assoc.
    change (SP ++ (join SP (m :: ns) ++ NL))
      with (String " "%char (join SP (m :: ns) ++ NL)).
    rewrite (split_token_space n _ " "%char Hn eq_refl).
    rewrite (IH m Hrest). reflexivity.
Qed.

Lemma split_address_line (a n : string) (ns : list string) :
  is_token a = true ->
  Forall (fun x => is_token x = true) (n :: ns) ->
  split (a ++ TAB ++ join SP (n :: ns) ++ NL) = a :: n :: ns.
Proof.
  intros Ha Hall.
  change (TAB ++ join SP (n :: ns) ++ NL)
    with (String tab (join SP (n :: ns) ++ NL)).
  rewrite (split_token_space a _ tab Ha eq_refl).
  rewrite (split_join_line n ns Hall). reflexivity.
Qed.

(** What the loop of [populate_entries] does on a line that
    serialization writes: it allocates an instance whose text is the
    line, and appends it. *)
Lemma load_line_serialized (line : string) :
  serialized_line is_ipv4 is_ipv6 line ->
  exists e : HostsEntry,
    entry_text e = Ok line
    /\ forall s : State,
         load_line is_ipv4 is_ipv6 line s
         = (set_entries (entries s ++ [next_ref s])%list (alloc_state e s),
            Ok tt).
Proof.
  assert (Hcomment : forall l : string,
    starts_with hash l = true ->
    exists e : HostsEntry,
      entry_text e = Ok l
      /\ forall s : State,
           load_line is_ipv4 is_ipv6 l s
           = (set_entries (entries s ++ [next_ref s])%list (alloc_state e s),
              Ok tt)).
  { intros l Hl. destruct l as [|c l]; [discriminate Hl |].
    simpl in Hl.
    exists (mkEntry Comment None (Some (String c l)) None).
    split; [reflexivity |]. intro s.
    unfold load_line, bind, lift_result, get_entry_type.
    rewrite Hl. reflexivity. }
  intro Hline. destruct Hline as [line Hl | | a n ns Ha Hv Hall].
  - apply Hcomment. exact Hl.
  - exists (mkEntry Blank None None None). split; reflexivity.
  - destruct (starts_with hash (a ++ TAB ++ join SP (n :: ns) ++ NL))
      eqn:Hh; [apply Hcomment; exact Hh |].
    pose proof (split_address_line a n ns Ha Hall) as Hsplit.
    destruct a as [|c a]; [discriminate Ha |].
    assert (Hsp : is_space c = false).
    { simpl in Ha. apply andb_prop in Ha. destruct Ha as [Hc _].
      apply negb_true_iff in Hc. exact Hc. }
    assert (Hnl : Ascii.eqb c nl = false).
    { destruct (Ascii.eqb c nl) eqn:E; [| reflexivity].
      apply Ascii.eqb_eq in E. subst c. discriminate Hsp. }
    simpl in Hh.
    destruct (is_ipv4 (String c a)) eqn:H4.
    + exists (mkEntry Ipv4 (Some (String c a)) None (Some (n :: ns))).
      split; [reflexivity |]. intro s.
      unfold load_line, bind, lift_result, get_entry_type.
      change (String c a ++ TAB ++ join SP (n :: ns) ++ NL)
        with (String c (a ++ TAB ++ join SP (n :: ns) ++ NL)) in Hsplit |- *.
      cbv iota. rewrite Hh, Hnl, Hsplit, H4. cbv iota. cbv beta.
      unfold HostsEntry_init, check_address, bind, ret.
      simpl. rewrite H4. reflexivity.
    + simpl in Hv.
      exists (mkEntry Ipv6 (Some (String c a)) None (Some (n :: ns))).
      split; [reflexivity |]. intro s.
      unfold load_line, bind, lift_result, get_entry_type.
      change (String c a ++ TAB ++ join SP (n :: ns) ++ NL)
        with (String c (a ++ TAB ++ join SP (n :: ns) ++ NL)) in Hsplit |- *.
      cbv iota. rewrite Hh, Hnl, Hsplit, H4, Hv. cbv iota. cbv beta.
      unfold HostsEntry_init, check_address, bind, ret.
      simpl. rewrite Hv. reflexivity.
Qed.

Lemma load_lines_serialized (lines : list string) :
  Forall (serialized_line is_ipv4 is_ipv6) lines ->
  forall (s : State) (texts : list string),
    Forall (fun x => x < next_ref s) (entries s) ->
    Forall2 (fun x t => entry_text (obj s x) = Ok t) (entries s) texts ->
    exists s' : State,
      load_lines is_ipv4 is_ipv6 lines s = (s', Ok tt)
      /\ writable s' = writable s
      /\ Forall2 (fun x t => entry_text (obj s' x) = Ok t)
                 (entries s') (texts ++ lines)%list.
Proof.
  intro Hall. induction Hall as [|line lines Hline _ IH];
    intros s texts Hfresh Htexts.
  - exists s. rewrite app_nil_r. repeat split. exact Htexts.
  - destruct (load_line_serialized line Hline) as [e [He Hload]].
    set (s1 := set_entries (entries s ++ [next_ref s])%list
                           (alloc_state e s)).
    destruct (IH s1 (texts ++ [line])%list) as [s' [Hrun [Hw Hres]]].
    + simpl. apply Forall_app. split.
      * eapply Forall_impl; [| exact Hfresh]. simpl. intros x Hx. lia.
      * constructor; [lia | constructor].
    + simpl. apply Forall2_app.
      * clear - Hfresh Htexts.
        induction Htexts as [|x t l ts Hx _ IHl]; constructor.
        -- inversion Hfresh as [|? ? Hlt _]. subst.
           destruct (Nat.eqb x (next_ref s)) eqn:E; [| exact Hx].
           apply Nat.eqb_eq in E. lia.
        -- apply IHl. inversion Hfresh. assumption.
      * constructor; [| constructor].
        rewrite Nat.eqb_refl. exact He.
    + exists s'. split; [| split].
      * simpl. unfold bind. rewrite Hload. exact Hrun.
      * rewrite Hw. reflexivity.
      * rewrite <- app_assoc in Hres. exact Hres.
Qed.

Lemma write_lines_texts (o : ref -> HostsEntry) (l : list ref)
    (texts : list string) :
  Forall2 (fun x t => entry_text (o x) = Ok t) l texts ->
  forall out : string,
    write_lines (map o l) out = (out ++ concat_str texts, Ok tt).
Proof.
  intro H. induction H as [|x t l ts Hx _ IH]; intro out; simpl.
  - rewrite str_app_nil_r. reflexivity.
  - rewrite Hx, IH. fold (concat_str ts). rewrite str_app_assoc.
    reflexivity.
Qed.

(** C4, amended: when every line of the file is a line as serialization
    writes it (a comment line, the blank line, or an address line made of
    a valid address, one tab, the names separated by single spaces, and a
    newline), loading the file and writing the collection back leaves
    the file with its original content, byte for byte. *)
Theorem load_write_roundtrip :
  forall (s : State) (content : string),
    hosts_file s = Some content ->
    writable s = true ->
    Forall (serialized_line is_ipv4 is_ipv6) (readlines content) ->
    exists s1 s2 : State,
      Hosts_init is_ipv4 is_ipv6 s = (s1, Ok tt)
      /\ write s1 = (s2, Ok tt)
      /\ hosts_file s2 = Some content.
Proof.
  intros s content Hf Hw Hall.
  destruct (load_lines_serialized (readlines content) Hall
              (set_entries [] s) []) as [s1 [Hrun [Hw1 Htexts]]].
  - constructor.
  - constructor.
  - exists s1.
    exists (set_hosts_file (Some content) s1).
    split; [| split; [| reflexivity]].
    + unfold Hosts_init, bind, populate_entries. simpl. rewrite Hf.
      exact Hrun.
    + unfold write. rewrite Hw1. simpl. rewrite Hw.
      unfold entry_values.
      rewrite (write_lines_texts (obj s1) (entries s1) _ Htexts).
      simpl. rewrite concat_readlines. reflexivity.
Qed.

(** ** The constructor, on every input *)

Lemma parse_entry_type_sound (name : string) (t : EntryType) :
  parse_entry_type name = Some t -> entry_type_name t = name.
Proof.
  unfold parse_entry_type.
  destruct (String.eqb name "ipv4") eqn:E4;
    [apply String.eqb_eq in E4; intro H; inversion H; subst;
     reflexivity |].
  destruct (String.eqb name "ipv6") eqn:E6;
    [apply String.eqb_eq in E6; intro H; inversion H; subst;
     reflexivity |].
  destruct (String.eqb name "comment") eqn:Ec;
    [apply String.eqb_eq in Ec; intro H; inversion H; subst;
     reflexivity |].
  destruct (String.eqb name "blank") eqn:Eb;
    [apply String.eqb_eq in Eb; intro H; inversion H; subst;
     reflexivity |].
  discriminate.
Qed.

(** X1: whatever its arguments, the constructor either raises and leaves
    the state as it was, or returns the fresh reference [next_ref s] of
    an instance that carries the given attributes under the given kind
    and satisfies [entry_valid]; no other instance and no field of the
    collection changes. *)
Theorem init_establishes_validity :
  forall (entry_type0 address0 comment0 : option string)
         (names0 : option (list string)) (s : State),
    match HostsEntry_init is_ipv4 is_ipv6 entry_type0 address0 comment0
                          names0 s with
    | (s', Ok r) =>
        r = next_ref s
        /\ next_ref s' = S (next_ref s)
        /\ entry_type0 = Some (entry_type_name (entry_type (obj s' r)))
        /\ address (obj s' r) = address0
        /\ comment (obj s' r) = comment0
        /\ names (obj s' r) = names0
        /\ entry_valid is_ipv4 is_ipv6 (obj s' r) = true
        /\ (forall x, x <> r -> obj s' x = obj s x)
        /\ entries s' = entries s
        /\ hosts_file s' = hosts_file s
        /\ writable s' = writable s
    | (s', Raise _) => s' = s
    end.
Proof.
  intros entry_type0 address0 comment0 names0 s.
  unfold HostsEntry_init.
  destruct entry_type0 as [name|]; [| reflexivity].
  destruct (parse_entry_type name) as [t|] eqn:Hp; [| reflexivity].
  apply parse_entry_type_sound in Hp. subst name.
  assert (Hfresh : forall e x,
            x <> next_ref s -> obj (alloc_state e s) x = obj s x).
  { intros e x Hx. simpl. destruct (Nat.eqb x (next_ref s)) eqn:E;
      [apply Nat.eqb_eq in E; contradiction | reflexivity]. }
  destruct t; simpl; unfold bind, ret, raise, check_address.
  - destruct (truthy_str comment0) eqn:Hc; simpl; [| reflexivity].
    rewrite Nat.eqb_refl. unfold entry_valid. simpl. rewrite Hc.
    repeat split. intros x Hx. exact (Hfresh _ x Hx).
  - rewrite Nat.eqb_refl. repeat split. intros x Hx. exact (Hfresh _ x Hx).
  - destruct address0 as [[|c a]|]; try reflexivity.
    destruct (truthy_list names0) eqn:Hn; [| reflexivity].
    destruct (is_ipv4 (String c a)) eqn:H4; [| reflexivity].
    simpl. rewrite Nat.eqb_refl. unfold entry_valid. simpl.
    rewrite Hn, H4.
    repeat split. intros x Hx. exact (Hfresh _ x Hx).
  - destruct address0 as [[|c a]|]; try reflexivity.
    destruct (truthy_list names0) eqn:Hn; [| reflexivity].
    destruct (is_ipv6 (String c a)) eqn:H6; [| reflexivity].
    simpl. rewrite Nat.eqb_refl. unfold entry_valid. simpl.
    rewrite Hn, H6.
    repeat split. intros x Hx. exact (Hfresh _ x Hx).
Qed.

(** ** Splitting and stripping *)

Lemma split_cons_space (c : ascii) (s : string) :
  is_space c = true -> split (String c s) = split s.
Proof. intro H. simpl. rewrite H. reflexivity. Qed.

Lemma split_cons_char (c : ascii) (s : string) :
  is_space c = false ->
  split (String c s)
  = match s with
    | EmptyString => [String c EmptyString]
    | String c' _ =>
        if is_space c' then String c EmptyString :: split s
        else match split s with
             | t :: ts => String c t :: ts
             | [] => [String c EmptyString]
             end
    end.
Proof. intro H. simpl. rewrite H. reflexivity. Qed.

Lemma split_head (c : ascii) (s : string) :
  is_space c = false ->
  exists t ts, split (String c s) = String c t :: ts.
Proof.
  intro H. rewrite (split_cons_char c s H).
  destruct s as [|c' s']; [eexists; eexists; reflexivity |].
  destruct (is_space c'); [eexists; eexists; reflexivity |].
  destruct (split (String c' s')); eexists; eexists; reflexivity.
Qed.

Lemma split_no_token_cons (c : ascii) (s : string) :
  is_space c = false ->
  split s = [] ->
  split (String c s) = [String c EmptyString].
Proof.
  intros H Hs. rewrite (split_cons_char c s H).
  destruct s as [|c' s']; [reflexivity |].
  rewrite Hs. destruct (is_space c'); reflexivity.
Qed.

Lemma split_lstrip (s : string) : split (lstrip s) = split s.
Proof.
  induction s as [|c s IH]; [reflexivity |].
  destruct (is_space c) eqn:Hc.
  - rewrite (split_cons_space c s Hc). simpl. rewrite Hc. exact IH.
  - simpl lstrip. rewrite Hc. reflexivity.
Qed.

Lemma rstrip_head (s t : string) (d : ascii) :
  rstrip s = String d t -> exists s', s = String d s'.
Proof.
  destruct s as [|c s]; simpl; [discriminate |].
  destruct (rstrip s).
  - destruct (is_space c); [discriminate |].
    intro H. inversion H. subst. eexists; reflexivity.
  - intro H. inversion H. subst. eexists; reflexivity.
Qed.

Lemma split_rstrip (s : string) : split (rstrip s) = split s.
Proof.
  induction s as [|c s IH]; [reflexivity |].
  simpl rstrip. destruct (rstrip s) as [|d t] eqn:Hr.
  - simpl in IH. symmetry in IH.
    destruct (is_space c) eqn:Hc.
    + rewrite (split_cons_space c s Hc). rewrite IH. reflexivity.
    + rewrite (split_no_token_cons c s Hc IH).
      rewrite (split_cons_char c EmptyString Hc). reflexivity.
  - destruct (rstrip_head s t d Hr) as [s' ->].
    destruct (is_space c) eqn:Hc.
    + rewrite !(split_cons_space c _ Hc). exact IH.
    + rewrite !(split_cons_char c _ Hc). rewrite IH. reflexivity.
Qed.

Lemma split_strip (s : string) : split (strip s) = split s.
Proof. unfold strip. rewrite split_rstrip. apply split_lstrip. Qed.

Lemma split_first_char (c : ascii) (l a : string) (ns : list string) :
  split (String c l) = a :: ns ->
  starts_with hash a = false ->
  Ascii.eqb c hash = false.
Proof.
  intros Hs Ha. destruct (Ascii.eqb c hash) eqn:E; [| reflexivity].
  apply Ascii.eqb_eq in E. subst c.
  destruct (split_head hash l eq_refl) as [t [ts Ht]].
  rewrite Ht in Hs. inversion Hs. subst. discriminate Ha.
Qed.

Lemma split_token_nonempty (s : string) (ns : list string) :
  split s <> EmptyString :: ns.
Proof.
  induction s as [|c s IH]; [discriminate |].
  destruct (is_space c) eqn:Hc.
  - rewrite (split_cons_space c s Hc). exact IH.
  - destruct (split_head c s Hc) as [t [ts ->]]. discriminate.
Qed.

(** ** Strings passed to [str_to_hostentry] and [add] *)

(** X2: on a string without any character that is not whitespace (the
    empty string included), [str_to_hostentry] raises an index error, and
    so does [add]; the state is unchanged. *)
Theorem add_blank_string_raises :
  forall (line : string) (force : bool) (s : State),
    split line = [] ->
    str_to_hostentry is_ipv4 is_ipv6 valid_hostnames line s
    = (s, Raise IndexError)
    /\ add is_ipv4 is_ipv6 valid_hostnames (PStr line) force s
       = (s, Raise IndexError).
Proof.
  intros line force s Hs.
  assert (H : str_to_hostentry is_ipv4 is_ipv6 valid_hostnames line s
              = (s, Raise IndexError)).
  { unfold str_to_hostentry. rewrite split_strip, Hs. reflexivity. }
  split; [exact H |].
  unfold add, resolve, bind. rewrite H. reflexivity.
Qed.

(** X3: on a string whose first token does not start with [#] and is no
    valid address, or is a valid address followed by names that
    [valid_hostnames] rejects, [str_to_hostentry] returns [False]; [add]
    then raises an attribute error instead of returning false, and
    nothing is added or written. *)
Theorem add_unparseable_string_raises :
  forall (line a : string) (ns : list string) (force : bool) (s : State),
    split line = a :: ns ->
    starts_with hash a = false ->
    (is_ipv4 a || is_ipv6 a = true -> valid_hostnames ns = false) ->
    str_to_hostentry is_ipv4 is_ipv6 valid_hostnames line s = (s, Ok None)
    /\ add is_ipv4 is_ipv6 valid_hostnames (PStr line) force s
       = (s, Raise AttributeError).
Proof.
  intros line a ns force s Hs Ha Hv.
  assert (H : str_to_hostentry is_ipv4 is_ipv6 valid_hostnames line s
              = (s, Ok None)).
  { unfold str_to_hostentry. rewrite split_strip, Hs.
    destruct a as [|c p];
      [exfalso; exact (split_token_nonempty _ _ Hs) |].
    simpl in Ha. rewrite Ha.
    destruct (is_ipv4 (String c p)) eqn:H4.
    - rewrite (Hv eq_refl). reflexivity.
    - destruct (is_ipv6 (String c p)) eqn:H6; [| reflexivity].
      rewrite (Hv eq_refl). reflexivity. }
  split; [exact H |].
  unfold add, resolve, bind. rewrite H. reflexivity.
Qed.

(** X4: on a line that does not start with a newline, whose first token
    does not start with [#] and, when it is a valid address, is followed
    by names that [valid_hostnames] accepts, the loop of
    [populate_entries] does what [str_to_hostentry] followed by an append
    does: the same instance is built, or the same exception raised, or
    the line is dropped where [str_to_hostentry] returns [False]. *)
Theorem load_line_as_str_to_hostentry :
  forall (line a : string) (ns : list string) (s : State),
    split line = a :: ns ->
    starts_with hash a = false ->
    starts_with nl line = false ->
    (is_ipv4 a || is_ipv6 a = true -> valid_hostnames ns = true) ->
    load_line is_ipv4 is_ipv6 line s
    = (r <- str_to_hostentry is_ipv4 is_ipv6 valid_hostnames line ;;
       match r with
       | Some x => entries_append x
       | None => ret tt
       end) s.
Proof.
  intros line a ns s Hs Ha Hn Hv.
  destruct line as [|c l]; [discriminate Hs |].
  pose proof (split_first_char c l a ns Hs Ha) as Hh.
  simpl in Hn.
  unfold load_line, str_to_hostentry, lift_result, get_entry_type.
  rewrite split_strip. unfold bind at 1. cbv iota.
  rewrite Hh, Hn, Hs.
  destruct a as [|d p];
    [exfalso; exact (split_token_nonempty _ _ Hs) |].
  simpl in Ha. rewrite Ha.
  destruct (is_ipv4 (String d p)) eqn:H4.
  - rewrite (Hv eq_refl). unfold bind, ret. simpl entry_type_name.
    destruct (HostsEntry_init is_ipv4 is_ipv6 (Some "ipv4")
                (Some (String d p)) None (Some ns) s) as [s1 [r|e]];
      reflexivity.
  - destruct (is_ipv6 (String d p)) eqn:H6.
    + rewrite (Hv eq_refl). unfold bind, ret. simpl entry_type_name.
      destruct (HostsEntry_init is_ipv4 is_ipv6 (Some "ipv6")
                  (Some (String d p)) None (Some ns) s) as [s1 [r|e]];
        reflexivity.
    + reflexivity.
Qed.

(** ** Lines on which the load stops *)

(** X5: a line of whitespace that does not start with a newline stops
    the load with an index error: the entries of the lines before it stay
    in the collection, and the lines after it are not read. *)
Theorem load_whitespace_line_raises :
  forall (l1 l2 : list string) (line : string) (s s1 : State),
    line <> EmptyString ->
    starts_with nl line = false ->
    split line = [] ->
    load_lines is_ipv4 is_ipv6 l1 s = (s1, Ok tt) ->
    load_lines is_ipv4 is_ipv6 (l1 ++ line :: l2)%list s
    = (s1, Raise IndexError).
Proof.
  intros l1 l2 line s s1 Hne Hn Hs Hl1.
  rewrite load_lines_app. unfold bind at 1. rewrite Hl1.
  simpl. unfold bind at 1.
  destruct line as [|c l]; [contradiction |].
  simpl in Hn.
  assert (Hh : Ascii.eqb c hash = false).
  { destruct (Ascii.eqb c hash) eqn:E; [| reflexivity].
    apply Ascii.eqb_eq in E. subst c.
    destruct (split_head hash l eq_refl) as [t [ts Ht]].
    rewrite Ht in Hs. discriminate Hs. }
  unfold load_line, bind, lift_result, get_entry_type.
  rewrite Hh, Hn, Hs. reflexivity.
Qed.

(** X6: a line that consists of a valid IPv4 or IPv6 address without any
    name stops the load with the missing-fields exception of the
    constructor: the entries of the lines before it stay in the
    collection, and no entry is stored for the line. *)
Theorem load_address_without_names_raises :
  forall (l1 l2 : list string) (line a : string) (s s1 : State),
    starts_with hash line = false ->
    starts_with nl line = false ->
    split line = [a] ->
    is_ipv4 a || is_ipv6 a = true ->
    load_lines is_ipv4 is_ipv6 l1 s = (s1, Ok tt) ->
    load_lines is_ipv4 is_ipv6 (l1 ++ line :: l2)%list s
    = (s1, Raise missing_fields).
Proof.
  intros l1 l2 line a s s1 Hh Hn Hs Hv Hl1.
  rewrite load_lines_app. unfold bind at 1. rewrite Hl1.
  simpl. unfold bind at 1.
  destruct line as [|c l]; [discriminate Hs |].
  simpl in Hh, Hn.
  assert (Ha : exists d p, a = String d p).
  { destruct a as [|d p]; [| eexists; eexists; reflexivity].
    exfalso. exact (split_token_nonempty _ _ Hs). }
  destruct Ha as [d [p ->]].
  unfold load_line, bind, lift_result, get_entry_type.
  rewrite Hh, Hn, Hs.
  destruct (is_ipv4 (String d p)) eqn:H4.
  - reflexivity.
  - simpl in Hv. rewrite Hv. reflexivity.
Qed.

(** ** What a load leaves in the collection *)

(** One line either leaves the state as it is (the line is skipped or an
    exception is raised) or appends a new instance of the shape of its
    kind. *)
Lemma load_line_outcome (line : string) (s : State) :
  (exists r, load_line is_ipv4 is_ipv6 line s = (s, r))
  \/ (exists e,
        variant_shaped e = true
        /\ entry_valid is_ipv4 is_ipv6 e = true
        /\ load_line is_ipv4 is_ipv6 line s = (append_new e s, Ok tt)).
Proof.
  unfold load_line, bind, lift_result, get_entry_type.
  destruct line as [|c l]; [left; eexists; reflexivity |].
  destruct (Ascii.eqb c hash).
  { right. exists (mkEntry Comment None (Some (String c l)) None).
    repeat split. }
  destruct (Ascii.eqb c nl).
  { right. exists (mkEntry Blank None None None). repeat split. }
  destruct (split (String c l)) as [|chunk chunks];
    [left; eexists; reflexivity |].
  destruct (is_ipv4 chunk) eqn:H4.
  - cbv iota. cbv beta.
    destruct chunk as [|d p]; [left; eexists; reflexivity |].
    destruct chunks as [|n ns]; [left; eexists; reflexivity |].
    right. exists (mkEntry Ipv4 (Some (String d p)) None (Some (n :: ns))).
    split; [reflexivity |]. split.
    + unfold entry_valid. simpl. exact H4.
    + unfold HostsEntry_init, check_address, bind, ret. simpl.
      rewrite H4. reflexivity.
  - destruct (is_ipv6 chunk) eqn:H6; [| left; eexists; reflexivity].
    cbv iota. cbv beta.
    destruct chunk as [|d p]; [left; eexists; reflexivity |].
    destruct chunks as [|n ns]; [left; eexists; reflexivity |].
    right. exists (mkEntry Ipv6 (Some (String d p)) None (Some (n :: ns))).
    split; [reflexivity |]. split.
    + unfold entry_valid. simpl. exact H6.
    + unfold HostsEntry_init, check_address, bind, ret. simpl.
      rewrite H6. reflexivity.
Qed.

Lemma load_lines_invariant (lines : list string) :
  forall s : State,
    Forall (fun x => x < next_ref s
                     /\ variant_shaped (obj s x) = true
                     /\ entry_valid is_ipv4 is_ipv6 (obj s x) = true)
           (entries s) ->
    NoDup (entries s) ->
    let s' := fst (load_lines is_ipv4 is_ipv6 lines s) in
    Forall (fun x => x < next_ref s'
                     /\ variant_shaped (obj s' x) = true
                     /\ entry_valid is_ipv4 is_ipv6 (obj s' x) = true)
           (entries s')
    /\ NoDup (entries s').
Proof.
  induction lines as [|line lines IH]; intros s Hall Hnd.
  - simpl. split; assumption.
  - simpl. unfold bind.
    destruct (load_line_outcome line s) as [[r Hr] | [e [Hsh [Hv He]]]].
    + rewrite Hr. destruct r as [[]|err].
      * apply IH; assumption.
      * simpl. split; assumption.
    + rewrite He. apply IH.
      * unfold append_new. simpl. apply Forall_app. split.
        -- rewrite Forall_forall in Hall. apply Forall_forall.
           intros x Hx. destruct (Hall x Hx) as [Hlt [Hs1 Hv1]].
           destruct (Nat.eqb x (next_ref s)) eqn:E;
             [apply Nat.eqb_eq in E; lia |].
           repeat split; [lia | exact Hs1 | exact Hv1].
        -- constructor; [| constructor].
           rewrite Nat.eqb_refl. repeat split; [lia | exact Hsh | exact Hv].
      * unfold append_new. simpl.
        apply NoDup_app; [exact Hnd | constructor; [intros [] | constructor] |].
        intros x Hx [Heq | []]. subst x.
        rewrite Forall_forall in Hall. destruct (Hall _ Hx) as [Hlt _]. lia.
Qed.

(** X7: whatever the file holds, and whether the load returns or raises,
    the collection that [Hosts.__init__] leaves consists of distinct
    instances, each of the shape of its kind (a comment with its text
    only, a blank entry without attributes, an address entry with a
    non-empty address and at least one name and no comment) and
    satisfying what the constructor checks. *)
Theorem loaded_entries_shaped :
  forall s : State,
    let s' := fst (Hosts_init is_ipv4 is_ipv6 s) in
    Forall (fun x => variant_shaped (obj s' x) = true
                     /\ entry_valid is_ipv4 is_ipv6 (obj s' x) = true)
           (entries s')
    /\ NoDup (entries s').
Proof.
  intro s. unfold Hosts_init, bind, populate_entries. simpl.
  destruct (hosts_file s) as [content|].
  - destruct (load_lines_invariant (readlines content) (set_entries [] s))
      as [Hall Hnd]; [constructor | constructor |].
    split; [| exact Hnd].
    eapply Forall_impl; [| exact Hall]. simpl. intros x [_ H]. exact H.
  - simpl. split; constructor.
Qed.

(** ** Counting *)

Lemma count_step_bounds (e h : HostsEntry) (c : Counts) :
  address_matches (count_step e c h) <= S (address_matches c)
  /\ name_matches (count_step e c h) <= S (name_matches c)
  /\ comment_matches (count_step e c h) <= S (comment_matches c)
  /\ (is_address_type (entry_type e) = false ->
      address_matches (count_step e c h) = address_matches c
      /\ name_matches (count_step e c h) = name_matches c)
  /\ (entry_type_eqb (entry_type e) Comment = false ->
      comment_matches (count_step e c h) = comment_matches c).
Proof.
  assert (Hb : forall b, b2n b <= 1) by (intros []; simpl; lia).
  unfold count_step. simpl.
  repeat match goal with
         | |- _ /\ _ => split
         | |- _ -> _ => intro
         end;
    try (match goal with H : _ = false |- _ => rewrite H end; simpl; lia);
    match goal with |- context [b2n ?b] => pose proof (Hb b); lia end.
Qed.

Lemma count_fold_bounds (e : HostsEntry) (l : list HostsEntry) (c : Counts) :
  address_matches (fold_left (count_step e) l c)
    <= address_matches c + List.length l
  /\ name_matches (fold_left (count_step e) l c)
       <= name_matches c + List.length l
  /\ comment_matches (fold_left (count_step e) l c)
       <= comment_matches c + List.length l
  /\ (is_address_type (entry_type e) = false ->
      address_matches (fold_left (count_step e) l c) = address_matches c
      /\ name_matches (fold_left (count_step e) l c) = name_matches c)
  /\ (entry_type_eqb (entry_type e) Comment = false ->
      comment_matches (fold_left (count_step e) l c) = comment_matches c).
Proof.
  revert c. induction l as [|h l IH]; intro c; simpl.
  - repeat split; lia.
  - destruct (IH (count_step e c h)) as [Ha [Hn [Hc [Hna Hnc]]]].
    destruct (count_step_bounds e h c) as [Sa [Sn [Sc [Sna Snc]]]].
    repeat split; try lia.
    + destruct (Hna H) as [H1 _]. destruct (Sna H) as [H2 _]. lia.
    + destruct (Hna H) as [_ H1]. destruct (Sna H) as [_ H2]. lia.
    + intro H. rewrite (Hnc H). apply (Snc H).
Qed.

(** X8: [count] of an entry leaves the state as it is, and none of the
    three numbers it returns exceeds the length of the collection; for an
    entry that is not ipv4 or ipv6 the address and name matches are 0,
    and for an entry that is not a comment the comment matches are 0. *)
Theorem count_bounds :
  forall (s : State) (r : ref),
  exists c : Counts,
    count is_ipv4 is_ipv6 valid_hostnames (PEntry r) s = (s, Ok c)
    /\ address_matches c <= List.length (entries s)
    /\ name_matches c <= List.length (entries s)
    /\ comment_matches c <= List.length (entries s)
    /\ (is_address_type (entry_type (obj s r)) = false ->
        address_matches c = 0 /\ name_matches c = 0)
    /\ (entry_type (obj s r) <> Comment -> comment_matches c = 0).
Proof.
  intros s r. exists (count_entry (obj s r) (entry_values s)).
  split; [reflexivity |].
  unfold count_entry.
  destruct (count_fold_bounds (obj s r) (entry_values s) (mkCounts 0 0 0))
    as [Ha [Hn [Hc [Hna Hnc]]]].
  unfold entry_values in *. rewrite length_map in *. simpl in *.
  repeat split; try assumption.
  - apply (Hna H).
  - apply (Hna H).
  - intro H. apply Hnc.
    destruct (entry_type (obj s r)); try reflexivity. contradiction.
Qed.

(** ** Accepted and rejected additions *)

Lemma mem_str_In (x : string) (l : list string) :
  mem_str x l = true <-> In x l.
Proof.
  unfold mem_str. rewrite existsb_exists. split.
  - intros [y [Hy He]]. apply String.eqb_eq in He. subst y. exact Hy.
  - intro H. exists x. split; [exact H | apply String.eqb_refl].
Qed.

Lemma names_inter_true (a b : list string) :
  names_inter a b = true <-> exists n, In n a /\ In n b.
Proof.
  unfold names_inter. rewrite existsb_exists. split.
  - intros [n [Hn Hm]]. exists n. split; [exact Hn |].
    apply mem_str_In. exact Hm.
  - intros [n [Hn Hm]]. exists n. split; [exact Hn |].
    apply mem_str_In. exact Hm.
Qed.

Lemma names_inter_false (a b : list string) :
  (forall n, In n a -> ~ In n b) -> names_inter a b = false.
Proof.
  intro H. destruct (names_inter a b) eqn:E; [| reflexivity].
  apply names_inter_true in E. destruct E as [n [Ha Hb]].
  exfalso. exact (H n Ha Hb).
Qed.

Lemma opt_str_eqb_eq (a b : option string) :
  opt_str_eqb a b = true <-> a = b.
Proof.
  destruct a as [x|], b as [y|]; simpl; split; intro H;
    try discriminate; try reflexivity.
  - apply String.eqb_eq in H. subst. reflexivity.
  - inversion H. apply String.eqb_refl.
Qed.

Lemma count_name_mono (e : HostsEntry) (l : list HostsEntry) (c : Counts) :
  name_matches c <= name_matches (fold_left (count_step e) l c).
Proof.
  revert c. induction l as [|h l IH]; intro c; simpl.
  - apply Nat.le_refl.
  - eapply Nat.le_trans; [| apply IH]. simpl. apply Nat.le_add_r.
Qed.

Lemma count_name_hit (e host : HostsEntry) (l : list HostsEntry)
    (c : Counts) (n : string) :
  In host l ->
  is_address_type (entry_type e) = true ->
  In n (names_list e) ->
  In n (names_list host) ->
  name_matches c < name_matches (fold_left (count_step e) l c).
Proof.
  intros Hin Ht Hne Hnh. revert c.
  induction l as [|h l IH]; intro c; [contradiction |].
  simpl. destruct Hin as [-> | Hin].
  - eapply Nat.lt_le_trans; [| apply count_name_mono].
    simpl. rewrite Ht. unfold names_list in Hne, Hnh.
    destruct (names e) as [[|x en]|]; try contradiction.
    destruct (names host) as [[|y hn]|]; try contradiction.
    simpl truthy_list.
    assert (Hi : names_inter (x :: en) (y :: hn) = true)
      by (apply names_inter_true; exists n; split; assumption).
    rewrite Hi. simpl. lia.
  - eapply Nat.le_lt_trans; [| apply (IH Hin)]. simpl. lia.
Qed.

Lemma count_no_conflict (e : HostsEntry) (l : list HostsEntry) (c : Counts) :
  (forall h, In h l ->
             address h <> address e
             /\ forall n, In n (names_list e) -> ~ In n (names_list h)) ->
  address_matches (fold_left (count_step e) l c) = address_matches c
  /\ name_matches (fold_left (count_step e) l c) = name_matches c.
Proof.
  revert c. induction l as [|h l IH]; intros c Hl; [split; reflexivity |].
  simpl.
  destruct (IH (count_step e c h)) as [Ha Hn];
    [intros h' Hh'; apply Hl; right; exact Hh' |].
  rewrite Ha, Hn.
  destruct (Hl h (or_introl eq_refl)) as [Hneq Hdis].
  unfold count_step. simpl.
  assert (He : opt_str_eqb (address h) (address e) = false).
  { destruct (opt_str_eqb (address h) (address e)) eqn:E; [| reflexivity].
    apply opt_str_eqb_eq in E. contradiction. }
  rewrite He.
  assert (Hi : match names e, names h with
               | Some en, Some hn => names_inter en hn
               | _, _ => false
               end = false).
  { unfold names_list in Hdis.
    destruct (names e) as [en|]; [| reflexivity].
    destruct (names h) as [hn|]; [| reflexivity].
    apply names_inter_false. exact Hdis. }
  rewrite Hi. rewrite !andb_false_r. simpl. split; lia.
Qed.

(** What [add] does with an instance, branch by branch. *)
Lemma add_entry_unfold (r : ref) (force : bool) (s : State) :
  add is_ipv4 is_ipv6 valid_hostnames (PEntry r) force s
  = let c := count_entry (obj s r) (entry_values s) in
    if entry_type_eqb (entry_type (obj s r)) Comment
       && Nat.leb 1 (comment_matches c)
    then (s, Ok false)
    else if is_address_type (entry_type (obj s r)) then
      if negb force
         && (negb (Nat.eqb (address_matches c) 0)
             || negb (Nat.eqb (name_matches c) 0))
      then (s, Ok false)
      else if force
      then (remove (PEntry r) ;;; entries_append r ;;; write ;;; ret true) s
      else (entries_append r ;;; write ;;; ret true) s
    else (entries_append r ;;; write ;;; ret true) s.
Proof.
  unfold add, resolve, count, resolve, bind, ret, get_state. cbv beta zeta.
  destruct (entry_type (obj s r)); simpl.
  - destruct (comment_matches (count_entry (obj s r) (entry_values s)));
      reflexivity.
  - reflexivity.
  - destruct force; simpl.
    + destruct (remove (PEntry r) s) as [s1 [b|e]]; reflexivity.
    + destruct (negb (Nat.eqb (address_matches
                         (count_entry (obj s r) (entry_values s))) 0)
                || negb (Nat.eqb (name_matches
                         (count_entry (obj s r) (entry_values s))) 0));
        reflexivity.
  - destruct force; simpl.
    + destruct (remove (PEntry r) s) as [s1 [b|e]]; reflexivity.
    + destruct (negb (Nat.eqb (address_matches
                         (count_entry (obj s r) (entry_values s))) 0)
                || negb (Nat.eqb (name_matches
                         (count_entry (obj s r) (entry_values s))) 0));
        reflexivity.
Qed.

Lemma write_lines_valid_app (l : list HostsEntry) (out : string) :
  Forall (fun e => entry_valid is_ipv4 is_ipv6 e = true) l ->
  exists text, write_lines l out = (out ++ text, Ok tt).
Proof.
  intro Hl. revert out. induction Hl as [|e l He _ IH]; intro out; simpl.
  - exists EmptyString. rewrite str_app_nil_r. reflexivity.
  - destruct (entry_text_valid e He) as [t ->].
    destruct (IH (out ++ t)) as [text ->].
    exists (t ++ text). rewrite str_app_assoc. reflexivity.
Qed.

(** Appending a valid instance to a collection of valid instances and
    writing: the file becomes the serialization of the new collection. *)
Lemma append_write_valid (s : State) (r : ref) :
  writable s = true ->
  Forall (fun x => entry_valid is_ipv4 is_ipv6 (obj s x) = true)
         (entries s) ->
  entry_valid is_ipv4 is_ipv6 (obj s r) = true ->
  exists out : string,
    (entries_append r ;;; write ;;; ret true) s
    = (set_hosts_file (Some out) (set_entries (entries s ++ [r])%list s),
       Ok true)
    /\ write_lines (map (obj s) (entries s ++ [r])%list) EmptyString
       = (out, Ok tt).
Proof.
  intros Hw Hv Hr.
  destruct (write_lines_valid_app (map (obj s) (entries s ++ [r])%list)
              EmptyString) as [out Hout].
  - apply Forall_map. apply Forall_app. split;
      [exact Hv | constructor; [exact Hr | constructor]].
  - exists out. simpl in Hout. split; [| exact Hout].
    unfold bind, entries_append, write, ret. simpl.
    rewrite Hw. unfold entry_values. simpl. rewrite Hout. reflexivity.
Qed.

(** An address entry without conflict is appended and the file
    rewritten. *)
Lemma add_no_conflict_run :
  forall (s : State) (r : ref),
    is_address_type (entry_type (obj s r)) = true ->
    entry_valid is_ipv4 is_ipv6 (obj s r) = true ->
    Forall (fun x => entry_valid is_ipv4 is_ipv6 (obj s x) = true)
           (entries s) ->
    writable s = true ->
    (forall x, In x (entries s) ->
               address (obj s x) <> address (obj s r)
               /\ forall n, In n (names_list (obj s r)) ->
                            ~ In n (names_list (obj s x))) ->
    exists out : string,
      add is_ipv4 is_ipv6 valid_hostnames (PEntry r) false s
      = (set_hosts_file (Some out) (set_entries (entries s ++ [r])%list s),
         Ok true)
      /\ write_lines (map (obj s) (entries s ++ [r])%list) EmptyString
         = (out, Ok tt).
Proof.
  intros s r Ht Hr Hv Hw Hfree.
  destruct (append_write_valid s r Hw Hv Hr) as [out [Hrun Hout]].
  exists out. split; [| exact Hout].
  rewrite add_entry_unfold. cbv zeta.
  assert (Hc : entry_type_eqb (entry_type (obj s r)) Comment = false)
    by (destruct (entry_type (obj s r)); try discriminate Ht; reflexivity).
  rewrite Hc, Ht. simpl.
  destruct (count_no_conflict (obj s r) (entry_values s) (mkCounts 0 0 0))
    as [Ha Hn].
  - intros h Hh. unfold entry_values in Hh. apply in_map_iff in Hh.
    destruct Hh as [x [<- Hx]]. apply Hfree. exact Hx.
  - unfold count_entry. rewrite Ha, Hn. simpl. exact Hrun.
Qed.

(** X9: an ipv4 or ipv6 entry that shares no address and no name with
    an entry of the collection is accepted by [add] without [force]: it
    is appended at the end, nothing else changes in the collection, the
    file is rewritten as the serialization of the new collection, and
    [add] returns true. *)
Theorem add_without_conflict_appends :
  forall (s : State) (r : ref),
    is_address_type (entry_type (obj s r)) = true ->
    entry_valid is_ipv4 is_ipv6 (obj s r) = true ->
    Forall (fun x => entry_valid is_ipv4 is_ipv6 (obj s x) = true)
           (entries s) ->
    writable s = true ->
    (forall x, In x (entries s) ->
               address (obj s x) <> address (obj s r)
               /\ forall n, In n (names_list (obj s r)) ->
                            ~ In n (names_list (obj s x))) ->
    exists out : string,
      add is_ipv4 is_ipv6 valid_hostnames (PEntry r) false s
      = (set_hosts_file (Some out) (set_entries (entries s ++ [r])%list s),
         Ok true)
      /\ write_lines (map (obj s) (entries s ++ [r])%list) EmptyString
         = (out, Ok tt).
Proof. exact add_no_conflict_run. Qed.

(** X10: when an entry of the collection has a name in common with the
    ipv4 or ipv6 entry passed to [add], and [force] is false, [add]
    returns false and changes nothing, whatever the addresses are. *)
Theorem add_shared_name_rejected :
  forall (s : State) (r x : ref) (n : string),
    is_address_type (entry_type (obj s r)) = true ->
    In x (entries s) ->
    In n (names_list (obj s r)) ->
    In n (names_list (obj s x)) ->
    add is_ipv4 is_ipv6 valid_hostnames (PEntry r) false s = (s, Ok false).
Proof.
  intros s r x n Ht Hx Hnr Hnx.
  pose proof (count_name_hit (obj s r) (obj s x) (entry_values s)
                (mkCounts 0 0 0) n (in_map (obj s) _ _ Hx) Ht Hnr Hnx)
    as Hlt.
  rewrite add_entry_unfold. cbv zeta.
  assert (Hc : entry_type_eqb (entry_type (obj s r)) Comment = false)
    by (destruct (entry_type (obj s r)); try discriminate Ht; reflexivity).
  rewrite Hc, Ht. simpl. unfold count_entry.
  destruct (name_matches (fold_left (count_step (obj s r)) (entry_values s)
                            (mkCounts 0 0 0))); [simpl in Hlt; lia |].
  simpl. rewrite orb_true_r. reflexivity.
Qed.

(** X11: a comment entry whose text no entry of the collection carries
    is appended by [add], and a blank entry is always appended, even when
    the collection holds blank entries already; the file is rewritten as
    the serialization of the new collection and [add] returns true. *)
Theorem add_comment_or_blank_appends :
  forall (s : State) (r : ref) (force : bool),
    entry_valid is_ipv4 is_ipv6 (obj s r) = true ->
    Forall (fun x => entry_valid is_ipv4 is_ipv6 (obj s x) = true)
           (entries s) ->
    writable s = true ->
    entry_type (obj s r) = Blank
    \/ (entry_type (obj s r) = Comment
        /\ forall x, In x (entries s) ->
                     comment (obj s x) <> comment (obj s r)) ->
    exists out : string,
      add is_ipv4 is_ipv6 valid_hostnames (PEntry r) force s
      = (set_hosts_file (Some out) (set_entries (entries s ++ [r])%list s),
         Ok true)
      /\ write_lines (map (obj s) (entries s ++ [r])%list) EmptyString
         = (out, Ok tt).
Proof.
  intros s r force Hr Hv Hw Hkind.
  destruct (append_write_valid s r Hw Hv Hr) as [out [Hrun Hout]].
  exists out. split; [| exact Hout].
  rewrite add_entry_unfold. cbv zeta.
  destruct Hkind as [Hb | [Hc Hfree]].
  - rewrite Hb. simpl. exact Hrun.
  - rewrite Hc. simpl.
    assert (Hz : comment_matches (count_entry (obj s r) (entry_values s))
                 = 0).
    { unfold count_entry, entry_values.
      assert (Hgen : forall l c,
                (forall x, In x l -> comment (obj s x) <> comment (obj s r)) ->
                comment_matches (fold_left (count_step (obj s r))
                                           (map (obj s) l) c)
                = comment_matches c).
      { induction l as [|y l IH]; intros c Hl; [reflexivity |].
        simpl. rewrite IH; [| intros z Hz; apply Hl; right; exact Hz].
        unfold count_step. simpl.
        destruct (opt_str_eqb (comment (obj s y)) (comment (obj s r)))
          eqn:E.
        - apply opt_str_eqb_eq in E.
          exfalso. exact (Hl y (or_introl eq_refl) E).
        - rewrite andb_false_r. simpl. lia. }
      exact (Hgen (entries s) (mkCounts 0 0 0) Hfree). }
    rewrite Hz. simpl. exact Hrun.
Qed.

(** ** What [add] without [force] never does *)

Lemma init_cases (entry_type0 address0 comment0 : option string)
    (names0 : option (list string)) (s : State) :
  (exists e, HostsEntry_init is_ipv4 is_ipv6 entry_type0 address0 comment0
               names0 s = (s, Raise e))
  \/ (exists e, HostsEntry_init is_ipv4 is_ipv6 entry_type0 address0
                  comment0 names0 s
                = (alloc_state e s, Ok (next_ref s))).
Proof.
  unfold HostsEntry_init.
  destruct entry_type0 as [name|]; [| left; eexists; reflexivity].
  destruct (parse_entry_type name) as [t|]; [| left; eexists; reflexivity].
  destruct t; simpl; unfold bind, ret, raise, check_address.
  - destruct (truthy_str comment0); simpl;
      [right | left]; eexists; reflexivity.
  - right; eexists; reflexivity.
  - destruct address0 as [[|c a]|]; try (left; eexists; reflexivity).
    destruct (truthy_list names0); [| left; eexists; reflexivity].
    destruct (is_ipv4 (String c a)); [right | left]; eexists; reflexivity.
  - destruct address0 as [[|c a]|]; try (left; eexists; reflexivity).
    destruct (truthy_list names0); [| left; eexists; reflexivity].
    destruct (is_ipv6 (String c a)); [right | left]; eexists; reflexivity.
Qed.

Lemma str_to_hostentry_entries (line : string) (s : State) :
  entries (fst (str_to_hostentry is_ipv4 is_ipv6 valid_hostnames line s))
  = entries s.
Proof.
  assert (Hinit : forall t a c n,
    entries (fst ((r <- HostsEntry_init is_ipv4 is_ipv6 t a c n ;;
                   ret (Some r)) s)) = entries s).
  { intros t a c n. unfold bind, ret.
    destruct (init_cases t a c n s) as [[e ->] | [e ->]]; reflexivity. }
  unfold str_to_hostentry.
  destruct (split (strip line)) as [|[|c p] rest]; try reflexivity.
  destruct (Ascii.eqb c hash); [apply Hinit |].
  destruct (is_ipv4 (String c p)).
  - destruct (valid_hostnames rest); [apply Hinit | reflexivity].
  - destruct (is_ipv6 (String c p)); [| reflexivity].
    destruct (valid_hostnames rest); [apply Hinit | reflexivity].
Qed.

Lemma add_str_unfold (line : string) (force : bool) (s : State) :
  add is_ipv4 is_ipv6 valid_hostnames (PStr line) force s
  = match str_to_hostentry is_ipv4 is_ipv6 valid_hostnames line s with
    | (s1, Ok (Some r)) =>
        add is_ipv4 is_ipv6 valid_hostnames (PEntry r) force s1
    | (s1, Ok None) => (s1, Raise AttributeError)
    | (s1, Raise e) => (s1, Raise e)
    end.
Proof.
  unfold add, resolve, bind, ret.
  destruct (str_to_hostentry is_ipv4 is_ipv6 valid_hostnames line s)
    as [s1 [[r|]|e]]; reflexivity.
Qed.

Lemma append_write_entries (r : ref) (s : State) :
  entries (fst ((entries_append r ;;; write ;;; ret true) s))
  = (entries s ++ [r])%list.
Proof.
  unfold bind, entries_append, ret.
  destruct (write_frame (set_entries (entries s ++ [r])%list s))
    as [_ He].
  destruct (write (set_entries (entries s ++ [r])%list s))
    as [s1 [[]|e]]; simpl in *; exact He.
Qed.

Lemma add_entry_no_force_entries (r : ref) (s : State) :
  entries (fst (add is_ipv4 is_ipv6 valid_hostnames (PEntry r) false s))
  = entries s
  \/ entries (fst (add is_ipv4 is_ipv6 valid_hostnames (PEntry r) false s))
     = (entries s ++ [r])%list.
Proof.
  rewrite add_entry_unfold. cbv zeta.
  destruct (entry_type_eqb (entry_type (obj s r)) Comment
            && Nat.leb 1 (comment_matches
                            (count_entry (obj s r) (entry_values s))));
    [left; reflexivity |].
  destruct (is_address_type (entry_type (obj s r))).
  - destruct (negb false
              && (negb (Nat.eqb (address_matches
                          (count_entry (obj s r) (entry_values s))) 0)
                  || negb (Nat.eqb (name_matches
                          (count_entry (obj s r) (entry_values s))) 0)));
      [left; reflexivity | right; apply append_write_entries].
  - right. apply append_write_entries.
Qed.

(** X12: without [force], [add] never removes or reorders an entry of
    the collection, whatever its argument (nothing, a string or an
    instance) and whether it returns or raises: the collection afterwards
    is the collection before, followed by at most one entry. *)
Theorem add_without_force_keeps_entries :
  forall (entry : PyArg) (s : State),
  exists tail : list ref,
    entries (fst (add is_ipv4 is_ipv6 valid_hostnames entry false s))
    = (entries s ++ tail)%list
    /\ List.length tail <= 1.
Proof.
  intros entry s. destruct entry as [|line|r].
  - exists []. rewrite app_nil_r. split; [reflexivity | simpl; lia].
  - rewrite add_str_unfold.
    pose proof (str_to_hostentry_entries line s) as He.
    destruct (str_to_hostentry is_ipv4 is_ipv6 valid_hostnames line s)
      as [s1 [[r|]|e]]; simpl in He.
    + destruct (add_entry_no_force_entries r s1) as [H | H];
        rewrite H, He.
      * exists []. rewrite app_nil_r. split; [reflexivity | simpl; lia].
      * exists [r]. split; [reflexivity | simpl; lia].
    + exists []. simpl. rewrite app_nil_r, He.
      split; [reflexivity | simpl; lia].
    + exists []. simpl. rewrite app_nil_r, He.
      split; [reflexivity | simpl; lia].
  - destruct (add_entry_no_force_entries r s) as [H | H]; rewrite H.
    + exists []. rewrite app_nil_r. split; [reflexivity | simpl; lia].
    + exists [r]. split; [reflexivity | simpl; lia].
Qed.

(** ** What [remove] drops *)

Lemma filter_partition_length (p : ref -> bool) (l : list ref) :
  List.length (filter p l)
  + List.length (filter (fun x => negb (p x)) l)
  = List.length l.
Proof.
  induction l as [|x l IH]; [reflexivity |].
  simpl. destruct (p x); simpl; lia.
Qed.

Lemma filter_nonempty (p : ref -> bool) (l : list ref) :
  Nat.ltb 0 (List.length (filter p l)) = true
  <-> exists x, In x l /\ p x = true.
Proof.
  split.
  - intro H. destruct (filter p l) as [|x rest] eqn:E;
      [discriminate H |].
    exists x. apply filter_In. rewrite E. left. reflexivity.
  - intros [x Hx]. apply filter_In in Hx.
    destruct (filter p l); [contradiction | reflexivity].
Qed.

(** Removal by an entry without comment text, with the file it
    writes and the value it returns. *)
Lemma remove_no_comment_run :
  forall (s : State) (r : ref),
    truthy_str (comment (obj s r)) = false ->
    writable s = true ->
    Forall (fun x => entry_valid is_ipv4 is_ipv6 (obj s x) = true)
           (entries s) ->
    exists (out : string) (b : bool),
      remove (PEntry r) s
      = (set_hosts_file (Some out)
           (set_entries
              (filter (fun x => negb (names_match (obj s r) (obj s x)))
                      (entries s)) s),
         Ok b)
      /\ write_lines
           (map (obj s)
                (filter (fun x => negb (names_match (obj s r) (obj s x)))
                        (entries s))) EmptyString
         = (out, Ok tt)
      /\ (b = true <->
          exists x, In x (entries s)
                    /\ names_match (obj s r) (obj s x) = true)
      /\ (b = true <->
          List.length
            (filter (fun x => negb (names_match (obj s r) (obj s x)))
                    (entries s))
          < List.length (entries s)).
Proof.
  intros s r Hc Hw Hv.
  set (p := fun x => names_match (obj s r) (obj s x)).
  set (kept := filter (fun x => negb (p x)) (entries s)).
  destruct (write_lines_valid_app (map (obj s) kept) EmptyString)
    as [out Hout].
  { apply Forall_map. apply Forall_forall. intros x Hx. unfold kept in Hx.
    apply filter_In in Hx. destruct Hx as [Hx _].
    rewrite Forall_forall in Hv. apply Hv. exact Hx. }
  simpl in Hout.
  exists out. exists (Nat.ltb 0 (List.length (filter p (entries s)))).
  split; [| split; [exact Hout | split]].
  - unfold remove, bind, get_state, ret.
    rewrite (removal_scan_no_comment (obj s) (obj s r) (entries s) Hc).
    simpl fst. simpl snd. fold p.
    rewrite (remove_all_filter p (entries s) [] s
               (fun y (H : In y []) => match H with end) eq_refl).
    simpl app. fold kept. unfold write. simpl. rewrite Hw.
    unfold entry_values. simpl. rewrite Hout. reflexivity.
  - apply filter_nonempty.
  - pose proof (filter_partition_length p (entries s)) as Hlen.
    fold kept in Hlen. rewrite Nat.ltb_lt.
    change (filter (fun x => negb (names_match (obj s r) (obj s x)))
                   (entries s)) with kept.
    lia.
Qed.

(** X13: [remove] of an entry that carries no comment text, on a
    collection of valid entries whose file can be written, drops exactly
    the entries that have names and share the address, the whole name
    list or one name with it, keeps the others in their order, rewrites
    the file as the serialization of what is kept, and returns true if
    and only if it dropped an entry. *)
Theorem remove_drops_selected :
  forall (s : State) (r : ref),
    truthy_str (comment (obj s r)) = false ->
    writable s = true ->
    Forall (fun x => entry_valid is_ipv4 is_ipv6 (obj s x) = true)
           (entries s) ->
    exists (out : string) (b : bool),
      remove (PEntry r) s
      = (set_hosts_file (Some out)
           (set_entries
              (filter (fun x => negb (names_match (obj s r) (obj s x)))
                      (entries s)) s),
         Ok b)
      /\ write_lines
           (map (obj s)
                (filter (fun x => negb (names_match (obj s r) (obj s x)))
                        (entries s))) EmptyString
         = (out, Ok tt)
      /\ (b = true <->
          exists x, In x (entries s)
                    /\ names_match (obj s r) (obj s x) = true)
      /\ (b = true <->
          List.length
            (filter (fun x => negb (names_match (obj s r) (obj s x)))
                    (entries s))
          < List.length (entries s)).
Proof. exact remove_no_comment_run. Qed.

(** X14: [remove] of an entry that has no names and carries the comment
    text [c], on a collection of valid entries whose file can be written,
    drops exactly the entries whose comment text is [c], keeps the others
    in their order, and rewrites the file as the serialization of what is
    kept. *)
Theorem remove_comment_drops_same_text :
  forall (s : State) (r : ref) (c : string),
    truthy_list (names (obj s r)) = false ->
    comment (obj s r) = Some c ->
    c <> EmptyString ->
    writable s = true ->
    Forall (fun x => entry_valid is_ipv4 is_ipv6 (obj s x) = true)
           (entries s) ->
    exists (out : string) (b : bool),
      remove (PEntry r) s
      = (set_hosts_file (Some out)
           (set_entries
              (filter (fun x => negb (opt_str_eqb (comment (obj s x))
                                                  (Some c)))
                      (entries s)) s),
         Ok b)
      /\ write_lines
           (map (obj s)
                (filter (fun x => negb (opt_str_eqb (comment (obj s x))
                                                    (Some c)))
                        (entries s))) EmptyString
         = (out, Ok tt).
Proof.
  intros s r c Hn Hc Hne Hw Hv.
  set (p := fun x => opt_str_eqb (comment (obj s x)) (Some c)).
  set (kept := filter (fun x => negb (p x)) (entries s)).
  destruct (write_lines_valid_app (map (obj s) kept) EmptyString)
    as [out Hout].
  { apply Forall_map. apply Forall_forall. intros x Hx. unfold kept in Hx.
    apply filter_In in Hx. destruct Hx as [Hx _].
    rewrite Forall_forall in Hv. apply Hv. exact Hx. }
  simpl in Hout.
  assert (Hscan : forall l,
            removal_scan (obj s) (obj s r) l = (filter p l, 0)).
  { induction l as [|x l IH]; [reflexivity |].
    simpl. rewrite IH. unfold names_match, comment_match.
    rewrite Hn, Hc. rewrite andb_false_r. simpl.
    destruct c as [|c0 c']; [contradiction |]. simpl. unfold p.
    destruct (opt_str_eqb (comment (obj s x)) (Some (String c0 c')));
      reflexivity. }
  exists out. exists false.
  split; [| exact Hout].
  unfold remove, bind, get_state, ret. rewrite Hscan.
  simpl fst. simpl snd.
  rewrite (remove_all_filter p (entries s) [] s
             (fun y (H : In y []) => match H with end) eq_refl).
  simpl app. fold kept. unfold write. simpl. rewrite Hw.
  unfold entry_values. simpl. rewrite Hout. reflexivity.
Qed.

(** ** An entry selected twice *)

Lemma list_remove_count (x : ref) (l l' : list ref) :
  list_remove x l = Some l' ->
  forall y,
    count_occ Nat.eq_dec l y
    = count_occ Nat.eq_dec l' y + (if Nat.eqb x y then 1 else 0).
Proof.
  revert l'. induction l as [|z l IH]; intros l' Hrm y; simpl in Hrm.
  - discriminate Hrm.
  - destruct (Nat.eqb z x) eqn:Hzx.
    + apply Nat.eqb_eq in Hzx. subst z. inversion Hrm. subst l'.
      simpl. destruct (Nat.eq_dec x y) as [-> | Hne].
      * rewrite Nat.eqb_refl. lia.
      * apply Nat.eqb_neq in Hne. rewrite Hne. lia.
    + destruct (list_remove x l) as [rest|]; [| discriminate Hrm].
      inversion Hrm. subst l'. simpl.
      rewrite (IH rest eq_refl y).
      destruct (Nat.eq_dec z y); lia.
Qed.

Lemma remove_all_count (rl : list ref) :
  forall s s' : State,
    remove_all rl s = (s', Ok tt) ->
    forall y,
      count_occ Nat.eq_dec (entries s) y
      = count_occ Nat.eq_dec (entries s') y + count_occ Nat.eq_dec rl y.
Proof.
  induction rl as [|x rl IH]; intros s s' Hrun y.
  - simpl in Hrun. inversion Hrun. subst. simpl. lia.
  - simpl in Hrun. unfold bind, entries_remove in Hrun.
    destruct (list_remove x (entries s)) as [l|] eqn:Hrm;
      [| discriminate Hrun].
    rewrite (list_remove_count x (entries s) l Hrm y).
    pose proof (IH (set_entries l s) s' Hrun y) as Hrest.
    simpl in Hrest. rewrite Hrest. simpl.
    destruct (Nat.eq_dec x y) as [-> | Hne].
    + rewrite Nat.eqb_refl. lia.
    + apply Nat.eqb_neq in Hne. rewrite Hne. lia.
Qed.

Lemma remove_all_raises (rl : list ref) :
  forall (s s' : State) (e : PyErr),
    remove_all rl s = (s', Raise e) ->
    e = ValueError /\ hosts_file s' = hosts_file s /\ obj s' = obj s.
Proof.
  induction rl as [|x rl IH]; intros s s' e Hrun.
  - discriminate Hrun.
  - simpl in Hrun. unfold bind, entries_remove in Hrun.
    destruct (list_remove x (entries s)) as [l|].
    + destruct (IH (set_entries l s) s' e Hrun) as [He [Hf Ho]].
      repeat split; assumption.
    + inversion Hrun. subst. repeat split.
Qed.

Lemma removal_scan_count (o : ref -> HostsEntry) (e : HostsEntry)
    (l : list ref) (y : ref) :
  count_occ Nat.eq_dec (fst (removal_scan o e l)) y
  = (b2n (names_match e (o y)) + b2n (comment_match e (o y)))
    * count_occ Nat.eq_dec l y.
Proof.
  induction l as [|x l IH]; simpl; [lia |].
  destruct (removal_scan o e l) as [rl n]. simpl fst in IH |- *.
  destruct (Nat.eq_dec x y) as [Heq | Hne].
  - subst x.
    destruct (names_match e (o y)), (comment_match e (o y)); simpl;
      repeat match goal with
             | |- context [Nat.eq_dec y y] =>
                 destruct (Nat.eq_dec y y); [| contradiction]
             end;
      simpl in IH; lia.
  - destruct (names_match e (o x)), (comment_match e (o x)); simpl;
      repeat match goal with
             | |- context [Nat.eq_dec x y] =>
                 destruct (Nat.eq_dec x y); [contradiction |]
             end;
      exact IH.
Qed.

(** X15: when an entry of the collection is selected by both conditions
    of [remove] (it has names matching those of the argument, or its
    address, and it carries the comment text of the argument), [remove]
    raises a value error: the entry is put twice on the removal list, and
    the second [list.remove] of it fails; the file is not rewritten. *)
Theorem remove_double_match_raises :
  forall (s : State) (r x : ref),
    In x (entries s) ->
    names_match (obj s r) (obj s x) = true ->
    comment_match (obj s r) (obj s x) = true ->
    exists s' : State,
      remove (PEntry r) s = (s', Raise ValueError)
      /\ hosts_file s' = hosts_file s
      /\ obj s' = obj s.
Proof.
  intros s r x Hin Hn Hc.
  unfold remove, bind, get_state, ret.
  pose proof (removal_scan_count (obj s) (obj s r) (entries s) x) as Hcnt.
  rewrite Hn, Hc in Hcnt. simpl in Hcnt.
  destruct (remove_all (fst (removal_scan (obj s) (obj s r) (entries s))) s)
    as [s1 [[]|e]] eqn:Hrun.
  - exfalso.
    pose proof (remove_all_count _ s s1 Hrun x) as Hbal.
    pose proof (proj1 (count_occ_In Nat.eq_dec (entries s) x) Hin) as Hpos.
    lia.
  - destruct (remove_all_raises _ s s1 e Hrun) as [-> [Hf Ho]].
    exists s1. repeat split; assumption.
Qed.

(** ** How additions and removals compose *)

Lemma names_match_self (e : HostsEntry) :
  truthy_list (names e) = true -> names_match e e = true.
Proof.
  intro H. unfold names_match. rewrite H, opt_str_eqb_refl. reflexivity.
Qed.

Lemma filter_keep_all (p : ref -> bool) (l : list ref) :
  (forall x, In x l -> p x = true) -> filter p l = l.
Proof.
  induction l as [|x l IH]; intro H; [reflexivity |].
  simpl. rewrite (H x (or_introl eq_refl)).
  rewrite IH; [reflexivity | intros y Hy; apply H; right; exact Hy].
Qed.

Lemma filter_negb_filter (p : ref -> bool) (l : list ref) :
  filter (fun x => negb (p x)) (filter (fun x => negb (p x)) l)
  = filter (fun x => negb (p x)) l.
Proof.
  apply filter_keep_all. intros x Hx. apply filter_In in Hx.
  exact (proj2 Hx).
Qed.

(** The state a forced addition of an address entry without comment
    text leaves. *)
Lemma add_force_run (s : State) (r : ref) :
  is_address_type (entry_type (obj s r)) = true ->
  entry_valid is_ipv4 is_ipv6 (obj s r) = true ->
  truthy_str (comment (obj s r)) = false ->
  Forall (fun x => entry_valid is_ipv4 is_ipv6 (obj s x) = true)
         (entries s) ->
  writable s = true ->
  exists out : string,
    add is_ipv4 is_ipv6 valid_hostnames (PEntry r) true s
    = (set_hosts_file (Some out)
         (set_entries
            (filter (fun x => negb (names_match (obj s r) (obj s x)))
                    (entries s) ++ [r])%list s),
       Ok true)
    /\ write_lines
         (map (obj s)
              (filter (fun x => negb (names_match (obj s r) (obj s x)))
                      (entries s) ++ [r])%list) EmptyString
       = (out, Ok tt).
Proof.
  intros Ht Hvr Hc Hv Hw.
  set (kept := filter (fun x => negb (names_match (obj s r) (obj s x)))
                      (entries s)).
  destruct (remove_no_comment_run s r Hc Hw Hv) as [out1 [b [Hrm _]]].
  fold kept in Hrm.
  assert (Hvk : Forall (fun x => entry_valid is_ipv4 is_ipv6 (obj s x) = true)
                       kept).
  { apply Forall_forall. intros x Hx. unfold kept in Hx.
    apply filter_In in Hx. destruct Hx as [Hx _].
    rewrite Forall_forall in Hv. apply Hv. exact Hx. }
  destruct (append_write_valid
              (set_hosts_file (Some out1) (set_entries kept s)) r Hw Hvk Hvr)
    as [out [Hrun Hout]].
  exists out. split; [| exact Hout].
  rewrite add_entry_unfold. cbv zeta.
  assert (Hnc : entry_type_eqb (entry_type (obj s r)) Comment = false)
    by (destruct (entry_type (obj s r)); try discriminate Ht; reflexivity).
  rewrite Hnc, Ht. simpl. unfold bind at 1. rewrite Hrm.
  exact Hrun.
Qed.

(** X16: a forced addition of an ipv4 or ipv6 entry (without comment
    text, to a collection of valid entries whose file can be written)
    reaches a state that a second forced addition of the same entry
    leaves exactly as it is: the entry is removed and appended again, and
    the same file is written. *)
Theorem add_force_idempotent :
  forall (s : State) (r : ref),
    is_address_type (entry_type (obj s r)) = true ->
    entry_valid is_ipv4 is_ipv6 (obj s r) = true ->
    truthy_str (comment (obj s r)) = false ->
    Forall (fun x => entry_valid is_ipv4 is_ipv6 (obj s x) = true)
           (entries s) ->
    writable s = true ->
    exists s' : State,
      add is_ipv4 is_ipv6 valid_hostnames (PEntry r) true s = (s', Ok true)
      /\ add is_ipv4 is_ipv6 valid_hostnames (PEntry r) true s'
         = (s', Ok true).
Proof.
  intros s r Ht Hvr Hc Hv Hw.
  set (p := fun x => names_match (obj s r) (obj s x)).
  set (kept := filter (fun x => negb (p x)) (entries s)).
  destruct (add_force_run s r Ht Hvr Hc Hv Hw) as [out [Hrun Hout]].
  fold p in Hrun, Hout. fold kept in Hrun, Hout.
  set (s' := set_hosts_file (Some out)
               (set_entries (kept ++ [r])%list s)) in *.
  exists s'. split; [exact Hrun |].
  assert (Hv' : Forall (fun x => entry_valid is_ipv4 is_ipv6 (obj s' x) = true)
                       (entries s')).
  { simpl. apply Forall_app. split.
    - apply Forall_forall. intros x Hx. unfold kept in Hx.
      apply filter_In in Hx. destruct Hx as [Hx _].
      rewrite Forall_forall in Hv. apply Hv. exact Hx.
    - constructor; [exact Hvr | constructor]. }
  destruct (add_force_run s' r Ht Hvr Hc Hv' Hw) as [out' [Hrun' Hout']].
  assert (Hself : p r = true).
  { unfold p. apply names_match_self.
    apply (valid_address_truthy (obj s r) Ht Hvr). }
  assert (Hkept : filter (fun x => negb (names_match (obj s' r) (obj s' x)))
                         (entries s') = kept).
  { change (filter (fun x => negb (p x)) (kept ++ [r])%list = kept).
    rewrite filter_app. simpl. rewrite Hself. simpl.
    rewrite app_nil_r. apply filter_negb_filter. }
  rewrite Hkept in Hrun', Hout'.
  assert (Hsame : (out, @Ok unit tt) = (out', Ok tt))
    by (exact (eq_trans (eq_sym Hout) Hout')).
  inversion Hsame. subst out'.
  rewrite Hrun'. reflexivity.
Qed.

Lemma no_conflict_unmatched (e h : HostsEntry) :
  truthy_str (address e) = true ->
  address h <> address e ->
  (forall n, In n (names_list e) -> ~ In n (names_list h)) ->
  names_match e h = false.
Proof.
  intros Ha Hneq Hdis. unfold names_match.
  destruct (truthy_list (names h)) eqn:Hh; [| reflexivity].
  destruct (truthy_list (names e)) eqn:He; [| reflexivity].
  simpl.
  assert (H1 : opt_str_eqb (address h) (address e) = false).
  { destruct (opt_str_eqb (address h) (address e)) eqn:E; [| reflexivity].
    apply opt_str_eqb_eq in E. contradiction. }
  rewrite H1. unfold names_list in Hdis.
  destruct (names h) as [[|y hn]|]; try discriminate Hh.
  destruct (names e) as [[|x en]|]; try discriminate He.
  assert (H3 : names_inter (y :: hn) (x :: en) = false).
  { apply names_inter_false. intros n Hnh Hne. exact (Hdis n Hne Hnh). }
  rewrite H3. simpl. unfold names_eqb.
  destruct (list_eq_dec string_dec (y :: hn) (x :: en)) as [Heq |];
    [| reflexivity].
  exfalso. inversion Heq. subst.
  apply (Hdis x); left; reflexivity.
Qed.

(** X17: adding, without [force], an ipv4 or ipv6 entry (without comment
    text) that shares no address and no name with the collection, and
    then removing it, gives back the collection as it was: [add] and
    [remove] both return true, the entries are those before the addition,
    in their order, and the file is their serialization. *)
Theorem add_then_remove_restores :
  forall (s : State) (r : ref),
    is_address_type (entry_type (obj s r)) = true ->
    entry_valid is_ipv4 is_ipv6 (obj s r) = true ->
    truthy_str (comment (obj s r)) = false ->
    Forall (fun x => entry_valid is_ipv4 is_ipv6 (obj s x) = true)
           (entries s) ->
    writable s = true ->
    (forall x, In x (entries s) ->
               address (obj s x) <> address (obj s r)
               /\ forall n, In n (names_list (obj s r)) ->
                            ~ In n (names_list (obj s x))) ->
    exists (s1 : State) (out : string),
      add is_ipv4 is_ipv6 valid_hostnames (PEntry r) false s = (s1, Ok true)
      /\ remove (PEntry r) s1
         = (set_hosts_file (Some out) s, Ok true)
      /\ write_lines (entry_values s) EmptyString = (out, Ok tt).
Proof.
  intros s r Ht Hvr Hc Hv Hw Hfree.
  destruct (add_no_conflict_run s r Ht Hvr Hv Hw Hfree) as [out1 [Hadd _]].
  set (s1 := set_hosts_file (Some out1)
               (set_entries (entries s ++ [r])%list s)) in *.
  assert (Hv1 : Forall (fun x => entry_valid is_ipv4 is_ipv6 (obj s1 x) = true)
                       (entries s1)).
  { simpl. apply Forall_app. split;
      [exact Hv | constructor; [exact Hvr | constructor]]. }
  destruct (remove_no_comment_run s1 r Hc Hw Hv1)
    as [out [b [Hrm [Hout [Hb _]]]]].
  destruct (valid_address_truthy (obj s r) Ht Hvr) as [Har Hnr].
  assert (Hkept : filter (fun x => negb (names_match (obj s1 r) (obj s1 x)))
                         (entries s1) = entries s).
  { change (filter (fun x => negb (names_match (obj s r) (obj s x)))
                   (entries s ++ [r])%list = entries s).
    rewrite filter_app. simpl.
    rewrite (names_match_self (obj s r) Hnr). simpl. rewrite app_nil_r.
    apply filter_keep_all. intros x Hx.
    destruct (Hfree x Hx) as [Hneq Hdis].
    rewrite (no_conflict_unmatched (obj s r) (obj s x) Har Hneq Hdis).
    reflexivity. }
  rewrite Hkept in Hrm, Hout.
  assert (Hbt : b = true).
  { apply Hb. exists r. split.
    - simpl. apply in_or_app. right. left. reflexivity.
    - apply (names_match_self (obj s r) Hnr). }
  subst b.
  exists s1. exists out. split; [exact Hadd | split; [| exact Hout]].
  rewrite Hrm. reflexivity.
Qed.

(** X18: after [remove] of an entry without comment text (on a
    collection of valid entries whose file can be written), a second
    [remove] of the same entry finds nothing to drop: it returns false
    and leaves the state, the file included, exactly as it is. *)
Theorem remove_twice :
  forall (s : State) (r : ref),
    truthy_str (comment (obj s r)) = false ->
    writable s = true ->
    Forall (fun x => entry_valid is_ipv4 is_ipv6 (obj s x) = true)
           (entries s) ->
    exists (s1 : State) (b : bool),
      remove (PEntry r) s = (s1, Ok b)
      /\ remove (PEntry r) s1 = (s1, Ok false).
Proof.
  intros s r Hc Hw Hv.
  set (p := fun x => names_match (obj s r) (obj s x)).
  set (kept := filter (fun x => negb (p x)) (entries s)).
  destruct (remove_no_comment_run s r Hc Hw Hv) as [out [b [Hrm [Hout _]]]].
  fold p in Hrm, Hout. fold kept in Hrm, Hout.
  set (s1 := set_hosts_file (Some out) (set_entries kept s)) in *.
  exists s1. exists b. split; [exact Hrm |].
  assert (Hv1 : Forall (fun x => entry_valid is_ipv4 is_ipv6 (obj s1 x) = true)
                       (entries s1)).
  { simpl. apply Forall_forall. intros x Hx. unfold kept in Hx.
    apply filter_In in Hx. destruct Hx as [Hx _].
    rewrite Forall_forall in Hv. apply Hv. exact Hx. }
  destruct (remove_no_comment_run s1 r Hc Hw Hv1)
    as [out' [b' [Hrm' [Hout' [Hb' _]]]]].
  assert (Hkept : filter (fun x => negb (names_match (obj s1 r) (obj s1 x)))
                         (entries s1) = kept).
  { change (filter (fun x => negb (p x)) kept = kept).
    apply filter_negb_filter. }
  rewrite Hkept in Hrm', Hout'.
  assert (Hsame : (out, @Ok unit tt) = (out', Ok tt))
    by (exact (eq_trans (eq_sym Hout) Hout')).
  inversion Hsame. subst out'.
  assert (Hbf : b' = false).
  { destruct b'; [| reflexivity].
    destruct (proj1 Hb' eq_refl) as [x [Hx Hm]].
    simpl in Hx. unfold kept in Hx. apply filter_In in Hx.
    destruct Hx as [_ Hneg]. unfold p in Hneg.
    change (obj s1) with (obj s) in Hm. rewrite Hm in Hneg.
    discriminate Hneg. }
  subst b'. rewrite Hrm'. reflexivity.
Qed.

(** ** Writing and loading again *)

Lemma no_space_no_newline (t : string) :
  no_space t = true -> no_newline t = true.
Proof.
  induction t as [|c t IH]; [reflexivity |].
  simpl. intro H. apply andb_prop in H. destruct H as [Hc Ht].
  rewrite (IH Ht), andb_true_r.
  destruct (Ascii.eqb c nl) eqn:E; [| reflexivity].
  apply Ascii.eqb_eq in E. subst c. discriminate Hc.
Qed.

Lemma is_token_no_newline (t : string) :
  is_token t = true -> no_newline t = true.
Proof.
  destruct t as [|c t]; [discriminate |].
  apply no_space_no_newline.
Qed.

Lemma no_newline_app (a b : string) :
  no_newline (a ++ b) = no_newline a && no_newline b.
Proof.
  induction a as [|c a IH]; [reflexivity |].
  simpl. rewrite IH, andb_assoc. reflexivity.
Qed.

Lemma no_newline_join (n : string) (ns : list string) :
  Forall (fun x => is_token x = true) (n :: ns) ->
  no_newline (join SP (n :: ns)) = true.
Proof.
  revert n. induction ns as [|m ns IH]; intros n Hall.
  - inversion Hall. subst. simpl. apply is_token_no_newline. assumption.
  - inversion Hall as [|? ? Hn Hrest]. subst.
    change (join SP (n :: m :: ns)) with (n ++ SP ++ join SP (m :: ns)).
    rewrite !no_newline_app. rewrite (is_token_no_newline n Hn).
    rewrite (IH m Hrest). reflexivity.
Qed.

Lemma terminated_app_newline (t : string) :
  no_newline t = true -> terminated (t ++ NL) = true.
Proof.
  induction t as [|c t IH]; [reflexivity |].
  intro H. simpl in H. apply andb_prop in H. destruct H as [Hc Ht].
  pose proof (IH Ht) as Hrec.
  change (terminated (String c (t ++ NL)) = true).
  remember (t ++ NL) as u eqn:E.
  destruct u as [|d u].
  - destruct t; discriminate E.
  - change (negb (Ascii.eqb c nl) && terminated (String d u) = true).
    rewrite Hc, Hrec. reflexivity.
Qed.

Lemma readlines_terminated (t rest : string) :
  terminated t = true ->
  readlines (t ++ rest) = t :: readlines rest.
Proof.
  induction t as [|c t IH]; [discriminate |].
  intro H. destruct t as [|d t].
  - simpl in H. simpl. rewrite H.
    apply Ascii.eqb_eq in H. subst c. reflexivity.
  - change (terminated (String c (String d t)))
      with (negb (Ascii.eqb c nl) && terminated (String d t)) in H.
    apply andb_prop in H. destruct H as [Hc Ht].
    apply negb_true_iff in Hc.
    change (readlines (String c (String d t ++ rest))
            = String c (String d t) :: readlines rest).
    change (readlines (String c (String d t ++ rest)))
      with (if Ascii.eqb c nl
            then String c EmptyString :: readlines (String d t ++ rest)
            else match readlines (String d t ++ rest) with
                 | [] => [String c EmptyString]
                 | l :: ls => String c l :: ls
                 end).
    rewrite Hc, (IH Ht). reflexivity.
Qed.

Lemma readlines_concat (texts : list string) :
  Forall (fun t => terminated t = true) texts ->
  readlines (concat_str texts) = texts.
Proof.
  intro H. induction H as [|t texts Ht _ IH]; [reflexivity |].
  change (concat_str (t :: texts)) with (t ++ concat_str texts).
  rewrite (readlines_terminated t _ Ht), IH. reflexivity.
Qed.

Lemma forallb_token (l : list string) :
  forallb is_token l = true -> Forall (fun x => is_token x = true) l.
Proof.
  intro H. apply Forall_forall. intros x Hx.
  rewrite forallb_forall in H. apply H. exact Hx.
Qed.

(** The line of a reloadable entry, and what the loop of
    [populate_entries] does on it. *)
Lemma reloadable_line (e : HostsEntry) :
  reloadable is_ipv4 is_ipv6 e = true ->
  exists t : string,
    entry_text e = Ok t
    /\ terminated t = true
    /\ forall s : State,
         load_line is_ipv4 is_ipv6 t s = (append_new e s, Ok tt).
Proof.
  destruct e as [t a c n]. unfold reloadable, entry_text. simpl.
  destruct t.
  - destruct a as [a|]; [discriminate |].
    destruct c as [c|]; [| discriminate].
    destruct n as [n|]; [discriminate |].
    intro H. apply andb_prop in H. destruct H as [Hh Ht].
    exists c. split; [reflexivity | split; [exact Ht |]].
    intro s. destruct c as [|c0 c]; [discriminate Hh |].
    simpl in Hh.
    unfold load_line, bind, lift_result, get_entry_type.
    rewrite Hh. reflexivity.
  - destruct a as [a|]; [discriminate |].
    destruct c as [c|]; [discriminate |].
    destruct n as [n|]; [discriminate |].
    intros _. exists NL. repeat split.
  - destruct a as [a|]; [| discriminate].
    destruct c as [c|]; [discriminate |].
    destruct n as [[|n ns]|]; try discriminate.
    intro H.
    apply andb_prop in H. destruct H as [H Hns].
    apply andb_prop in H. destruct H as [H H4].
    apply andb_prop in H. destruct H as [Ha Hh].
    apply negb_true_iff in Hh.
    apply (forallb_token (n :: ns)) in Hns.
    exists (a ++ TAB ++ join SP (n :: ns) ++ NL).
    split; [reflexivity |]. split.
    { rewrite <- !str_app_assoc. apply terminated_app_newline.
      rewrite !no_newline_app. rewrite (is_token_no_newline a Ha).
      rewrite (no_newline_join n ns Hns). reflexivity. }
    intro s.
    pose proof (split_address_line a n ns Ha Hns) as Hsplit.
    destruct a as [|d a]; [discriminate Ha |].
    assert (Hnl : Ascii.eqb d nl = false).
    { destruct (Ascii.eqb d nl) eqn:E; [| reflexivity].
      apply Ascii.eqb_eq in E. subst d. discriminate Ha. }
    simpl in Hh.
    unfold load_line, bind, lift_result, get_entry_type.
    change (String d a ++ TAB ++ join SP (n :: ns) ++ NL)
      with (String d (a ++ TAB ++ join SP (n :: ns) ++ NL)) in Hsplit |- *.
    cbv iota. rewrite Hh, Hnl, Hsplit, H4. cbv iota. cbv beta.
    unfold HostsEntry_init, check_address, bind, ret.
    simpl. rewrite H4. reflexivity.
  - destruct a as [a|]; [| discriminate].
    destruct c as [c|]; [discriminate |].
    destruct n as [[|n ns]|]; try discriminate.
    intro H.
    apply andb_prop in H. destruct H as [H Hns].
    apply andb_prop in H. destruct H as [H H6].
    apply andb_prop in H. destruct H as [H H4].
    apply andb_prop in H. destruct H as [Ha Hh].
    apply negb_true_iff in Hh. apply negb_true_iff in H4.
    apply (forallb_token (n :: ns)) in Hns.
    exists (a ++ TAB ++ join SP (n :: ns) ++ NL).
    split; [reflexivity |]. split.
    { rewrite <- !str_app_assoc. apply terminated_app_newline.
      rewrite !no_newline_app. rewrite (is_token_no_newline a Ha).
      rewrite (no_newline_join n ns Hns). reflexivity. }
    intro s.
    pose proof (split_address_line a n ns Ha Hns) as Hsplit.
    destruct a as [|d a]; [discriminate Ha |].
    assert (Hnl : Ascii.eqb d nl = false).
    { destruct (Ascii.eqb d nl) eqn:E; [| reflexivity].
      apply Ascii.eqb_eq in E. subst d. discriminate Ha. }
    simpl in Hh.
    unfold load_line, bind, lift_result, get_entry_type.
    change (String d a ++ TAB ++ join SP (n :: ns) ++ NL)
      with (String d (a ++ TAB ++ join SP (n :: ns) ++ NL)) in Hsplit |- *.
    cbv iota. rewrite Hh, Hnl, Hsplit, H4, H6. cbv iota. cbv beta.
    unfold HostsEntry_init, check_address, bind, ret.
    simpl. rewrite H6. reflexivity.
Qed.

Lemma reloadable_lines (o : ref -> HostsEntry) (l : list ref) :
  Forall (fun x => reloadable is_ipv4 is_ipv6 (o x) = true) l ->
  exists texts : list string,
    Forall2 (fun x t => entry_text (o x) = Ok t) l texts
    /\ Forall (fun t => terminated t = true) texts
    /\ Forall2 (fun e t =>
                  forall s : State,
                    load_line is_ipv4 is_ipv6 t s = (append_new e s, Ok tt))
               (map o l) texts.
Proof.
  intro H. induction H as [|x l Hx _ [texts [H1 [H2 H3]]]].
  - exists []. repeat split; constructor.
  - destruct (reloadable_line (o x) Hx) as [t [Ht [Hterm Hload]]].
    exists (t :: texts). repeat split; constructor; assumption.
Qed.

Lemma load_lines_rebuild (es : list HostsEntry) (texts : list string) :
  Forall2 (fun e t =>
             forall s : State,
               load_line is_ipv4 is_ipv6 t s = (append_new e s, Ok tt))
          es texts ->
  forall s : State,
    Forall (fun x => x < next_ref s) (entries s) ->
    exists s' : State,
      load_lines is_ipv4 is_ipv6 texts s = (s', Ok tt)
      /\ entry_values s' = (entry_values s ++ es)%list
      /\ hosts_file s' = hosts_file s
      /\ writable s' = writable s.
Proof.
  intro H. induction H as [|e t es texts Hload _ IH]; intros s Hfresh.
  - exists s. rewrite app_nil_r. repeat split.
  - destruct (IH (append_new e s)) as [s' [Hrun [Hval [Hf Hw]]]].
    + unfold append_new. simpl. apply Forall_app. split.
      * eapply Forall_impl; [| exact Hfresh]. simpl. intros x Hx. lia.
      * constructor; [lia | constructor].
    + exists s'. split; [| split; [| split]].
      * simpl. unfold bind. rewrite Hload. exact Hrun.
      * rewrite Hval. unfold entry_values, append_new. simpl.
        rewrite map_app. simpl. rewrite Nat.eqb_refl.
        rewrite <- app_assoc. simpl. f_equal.
        apply map_ext_in. intros x Hx.
        rewrite Forall_forall in Hfresh.
        destruct (Nat.eqb x (next_ref s)) eqn:E; [| reflexivity].
        apply Nat.eqb_eq in E. specialize (Hfresh x Hx). lia.
      * rewrite Hf. reflexivity.
      * rewrite Hw. reflexivity.
Qed.

(** X19: when every entry of the collection is reloadable (a one-line
    comment, a blank entry, or an address entry made of tokens whose
    address is classified in its own family) and the file can be
    written, writing the collection and loading the file again succeeds
    and gives a collection with the same entries, attribute for
    attribute and in the same order, held by fresh instances. *)
Theorem write_load_roundtrip :
  forall s : State,
    writable s = true ->
    Forall (fun x => reloadable is_ipv4 is_ipv6 (obj s x) = true)
           (entries s) ->
    exists s1 s2 : State,
      write s = (s1, Ok tt)
      /\ Hosts_init is_ipv4 is_ipv6 s1 = (s2, Ok tt)
      /\ entry_values s2 = entry_values s
      /\ hosts_file s2 = hosts_file s1.
Proof.
  intros s Hw Hall.
  destruct (reloadable_lines (obj s) (entries s) Hall)
    as [texts [Htexts [Hterm Hload]]].
  set (s1 := set_hosts_file (Some (concat_str texts)) s).
  destruct (load_lines_rebuild (map (obj s) (entries s)) texts Hload
              (set_entries [] s1)) as [s2 [Hrun [Hval [Hf _]]]];
    [constructor |].
  exists s1. exists s2. split; [| split; [| split]].
  - unfold write. rewrite Hw. unfold entry_values.
    rewrite (write_lines_texts (obj s) (entries s) texts Htexts).
    reflexivity.
  - unfold Hosts_init, bind, populate_entries. simpl.
    rewrite (readlines_concat texts Hterm). exact Hrun.
  - rewrite Hval. reflexivity.
  - rewrite Hf. reflexivity.
Qed.

(** ** What [remove] and [add] keep *)

Lemma list_remove_sub (x : ref) (l l' : list ref) :
  list_remove x l = Some l' ->
  incl l' l /\ S (List.length l') = List.length l /\ (NoDup l -> NoDup l').
Proof.
  revert l'. induction l as [|y l IH]; intros l' Hrm; simpl in Hrm.
  - discriminate Hrm.
  - destruct (Nat.eqb y x).
    + inversion Hrm. subst l'. repeat split.
      * intros z Hz. right. exact Hz.
      * intro Hnd. inversion Hnd. assumption.
    + destruct (list_remove x l) as [rest|]; [| discriminate Hrm].
      inversion Hrm. subst l'.
      destruct (IH rest eq_refl) as [Hincl [Hlen Hnd]].
      repeat split.
      * intros z [-> | Hz]; [left; reflexivity | right; apply Hincl; exact Hz].
      * simpl. rewrite Hlen. reflexivity.
      * intro H. inversion H as [|? ? Hnotin Hrest]. subst.
        constructor; [| apply Hnd; exact Hrest].
        intro Hy. apply Hnotin. apply Hincl. exact Hy.
Qed.

Lemma remove_all_sub (rl : list ref) (s : State) :
  obj (fst (remove_all rl s)) = obj s
  /\ incl (entries (fst (remove_all rl s))) (entries s)
  /\ List.length (entries (fst (remove_all rl s)))
     <= List.length (entries s)
  /\ (NoDup (entries s) -> NoDup (entries (fst (remove_all rl s)))).
Proof.
  revert s. induction rl as [|x rl IH]; intro s.
  - simpl. repeat split; [apply incl_refl | lia | auto].
  - simpl. unfold bind, entries_remove.
    destruct (list_remove x (entries s)) as [l|] eqn:Hrm.
    + destruct (list_remove_sub x (entries s) l Hrm) as [Hi [Hl Hn]].
      destruct (IH (set_entries l s)) as [Ho [Hi2 [Hl2 Hn2]]].
      destruct (remove_all rl (set_entries l s)) as [s1 [[]|e]];
        simpl in *; repeat split;
        try exact Ho;
        try (eapply incl_tran; [exact Hi2 | exact Hi]);
        try lia;
        try (intro H; apply Hn2; apply Hn; exact H).
    + simpl. repeat split; [apply incl_refl | lia | auto].
Qed.

Lemma remove_sub (entry : PyArg) (s : State) :
  obj (fst (remove entry s)) = obj s
  /\ incl (entries (fst (remove entry s))) (entries s)
  /\ List.length (entries (fst (remove entry s)))
     <= List.length (entries s)
  /\ (NoDup (entries s) -> NoDup (entries (fst (remove entry s)))).
Proof.
  assert (Hmain : forall rl n,
    obj (fst ((remove_all rl ;;; write ;;; ret (Nat.ltb 0 n)) s)) = obj s
    /\ incl (entries (fst ((remove_all rl ;;; write ;;;
                            ret (Nat.ltb 0 n)) s))) (entries s)
    /\ List.length (entries (fst ((remove_all rl ;;; write ;;;
                                   ret (Nat.ltb 0 n)) s)))
       <= List.length (entries s)
    /\ (NoDup (entries s) ->
        NoDup (entries (fst ((remove_all rl ;;; write ;;;
                              ret (Nat.ltb 0 n)) s))))).
  { intros rl n.
    destruct (remove_all_sub rl s) as [Ho [Hi [Hl Hn]]].
    unfold bind.
    destruct (remove_all rl s) as [s1 [[]|e]]; simpl in *;
      [| repeat split; assumption].
    destruct (write_frame s1) as [Ho1 He1].
    destruct (write s1) as [s2 [[]|e]]; simpl in *;
      rewrite Ho1, He1; repeat split; assumption. }
  destruct entry as [|str|r].
  - change (remove PNone s)
      with ((remove_all [] ;;; write ;;; ret (Nat.ltb 0 0)) s).
    apply Hmain.
  - destruct str as [|c str].
    + change (remove (PStr EmptyString) s)
        with ((remove_all [] ;;; write ;;; ret (Nat.ltb 0 0)) s).
      apply Hmain.
    + assert (Hstr :
        remove (PStr (String c str)) s
        = (remove_all [] ;;; write ;;; ret (Nat.ltb 0 0)) s
        \/ remove (PStr (String c str)) s = (s, Raise AttributeError)).
      { clear Hmain. unfold remove, bind, get_state. cbv beta.
        destruct (entries s); [left | right]; reflexivity. }
      destruct Hstr as [-> | ->].
      * apply Hmain.
      * simpl. repeat split; [apply incl_refl | lia | auto].
  - change (remove (PEntry r) s)
      with ((remove_all (fst (removal_scan (obj s) (obj s r) (entries s)))
             ;;; write ;;;
             ret (Nat.ltb 0 (snd (removal_scan (obj s) (obj s r)
                                    (entries s))))) s).
    apply Hmain.
Qed.

(** X20: [remove] never adds, duplicates or changes an entry, whatever
    its argument and whether it returns or raises: every entry of the
    collection afterwards was in it before, the collection is not longer,
    a collection of distinct instances stays one, and no instance is
    modified. *)
Theorem remove_only_drops :
  forall (entry : PyArg) (s : State),
    obj (fst (remove entry s)) = obj s
    /\ incl (entries (fst (remove entry s))) (entries s)
    /\ List.length (entries (fst (remove entry s)))
       <= List.length (entries s)
    /\ (NoDup (entries s) -> NoDup (entries (fst (remove entry s)))).
Proof. exact remove_sub. Qed.

(** X21: [add] of a valid instance to a collection of valid entries
    leaves a collection of valid entries, with or without [force] and
    whether it returns or raises, and modifies no instance. *)
Theorem add_keeps_valid :
  forall (s : State) (r : ref) (force : bool),
    entry_valid is_ipv4 is_ipv6 (obj s r) = true ->
    Forall (fun x => entry_valid is_ipv4 is_ipv6 (obj s x) = true)
           (entries s) ->
    obj (fst (add is_ipv4 is_ipv6 valid_hostnames (PEntry r) force s))
    = obj s
    /\ Forall (fun x => entry_valid is_ipv4 is_ipv6 (obj s x) = true)
              (entries (fst (add is_ipv4 is_ipv6 valid_hostnames
                                 (PEntry r) force s))).
Proof.
  intros s r force Hr Hv.
  assert (Happ : forall s0 : State,
    obj s0 = obj s ->
    Forall (fun x => entry_valid is_ipv4 is_ipv6 (obj s x) = true)
           (entries s0) ->
    obj (fst ((entries_append r ;;; write ;;; ret true) s0)) = obj s
    /\ Forall (fun x => entry_valid is_ipv4 is_ipv6 (obj s x) = true)
              (entries (fst ((entries_append r ;;; write ;;; ret true) s0)))).
  { intros s0 Ho Hv0. rewrite append_write_entries. split.
    - unfold bind, entries_append, ret.
      destruct (write_frame (set_entries (entries s0 ++ [r])%list s0))
        as [Hof _].
      destruct (write (set_entries (entries s0 ++ [r])%list s0))
        as [s1 [[]|e]]; simpl in *; rewrite Hof; exact Ho.
    - apply Forall_app. split;
        [exact Hv0 | constructor; [exact Hr | constructor]]. }
  rewrite add_entry_unfold. cbv zeta.
  destruct (entry_type_eqb (entry_type (obj s r)) Comment
            && Nat.leb 1 (comment_matches
                            (count_entry (obj s r) (entry_values s))));
    [split; [reflexivity | exact Hv] |].
  destruct (is_address_type (entry_type (obj s r)));
    [| apply Happ; [reflexivity | exact Hv]].
  destruct (negb force
            && (negb (Nat.eqb (address_matches
                        (count_entry (obj s r) (entry_values s))) 0)
                || negb (Nat.eqb (name_matches
                        (count_entry (obj s r) (entry_values s))) 0)));
    [split; [reflexivity | exact Hv] |].
  destruct force; [| apply Happ; [reflexivity | exact Hv]].
  destruct (remove_sub (PEntry r) s) as [Ho [Hi _]].
  change ((remove (PEntry r) ;;; entries_append r ;;; write ;;; ret true) s)
    with (match remove (PEntry r) s with
          | (s1, Ok _) => (entries_append r ;;; write ;;; ret true) s1
          | (s1, Raise e) => (s1, @Raise bool e)
          end).
  destruct (remove (PEntry r) s) as [s1 [b|e]]; simpl in Ho, Hi.
  - apply Happ; [exact Ho |].
    apply Forall_forall. intros x Hx.
    rewrite Forall_forall in Hv. apply Hv. apply Hi. exact Hx.
  - simpl. split; [exact Ho |].
    apply Forall_forall. intros x Hx.
    rewrite Forall_forall in Hv. apply Hv. apply Hi. exact Hx.
Qed.

(** ** A raw address line passed to [add] *)

Lemma write_lines_snoc (l : list HostsEntry) (e : HostsEntry)
    (old text : string) :
  write_lines l EmptyString = (old, Ok tt) ->
  entry_text e = Ok text ->
  write_lines (l ++ [e])%list EmptyString = (old ++ text, Ok tt).
Proof.
  intros Hl He.
  assert (Hgen : forall out : string,
            write_lines l out = (old, Ok tt) ->
            write_lines (l ++ [e])%list out = (old ++ text, Ok tt)).
  { clear Hl. induction l as [|h l IH]; intros out Hl; simpl in *.
    - inversion Hl. subst. rewrite He. reflexivity.
    - destruct (entry_text h) as [t|err]; [| discriminate Hl].
      apply IH. exact Hl. }
  apply Hgen. exact Hl.
Qed.

(** X22: [add] without [force] of a string that splits into a valid
    address, not starting with [#], and names that [valid_hostnames]
    accepts, none of which conflicts with the collection: a new instance
    with that address and those names, of the family of the address, is
    appended, [add] returns true, and the file is the serialization of
    the former entries followed by the line
    [address<TAB>names joined by spaces<newline>]. *)
Theorem add_address_string_appends :
  forall (s : State) (line a n : string) (ns : list string)
         (t : EntryType) (old : string),
    split line = a :: n :: ns ->
    starts_with hash a = false ->
    (t = Ipv4 /\ is_ipv4 a = true)
    \/ (t = Ipv6 /\ is_ipv4 a = false /\ is_ipv6 a = true) ->
    valid_hostnames (n :: ns) = true ->
    Forall (fun x => x < next_ref s) (entries s) ->
    Forall (fun x => entry_valid is_ipv4 is_ipv6 (obj s x) = true)
           (entries s) ->
    writable s = true ->
    (forall x, In x (entries s) ->
               address (obj s x) <> Some a
               /\ forall m, In m (n :: ns) ->
                            ~ In m (names_list (obj s x))) ->
    write_lines (entry_values s) EmptyString = (old, Ok tt) ->
    exists s' : State,
      add is_ipv4 is_ipv6 valid_hostnames (PStr line) false s = (s', Ok true)
      /\ entries s' = (entries s ++ [next_ref s])%list
      /\ entry_values s'
         = (entry_values s ++ [mkEntry t (Some a) None (Some (n :: ns))])%list
      /\ hosts_file s'
         = Some (old ++ a ++ TAB ++ join SP (n :: ns) ++ NL).
Proof.
  intros s line a n ns t old Hs Hh Hfam Hvh Hfresh Hv Hw Hfree Hold.
  set (e := mkEntry t (Some a) None (Some (n :: ns))).
  set (s1 := alloc_state e s).
  assert (Ha : exists d p, a = String d p).
  { destruct a as [|d p]; [| eexists; eexists; reflexivity].
    exfalso. exact (split_token_nonempty _ _ Hs). }
  assert (Hparse : str_to_hostentry is_ipv4 is_ipv6 valid_hostnames line s
                   = (s1, Ok (Some (next_ref s)))).
  { unfold str_to_hostentry. rewrite split_strip, Hs.
    destruct Ha as [d [p ->]]. simpl in Hh. rewrite Hh.
    destruct Hfam as [[-> H4] | [-> [H4 H6]]].
    - rewrite H4, Hvh.
      unfold HostsEntry_init, check_address, bind, ret. simpl.
      rewrite H4. reflexivity.
    - rewrite H4, H6, Hvh.
      unfold HostsEntry_init, check_address, bind, ret. simpl.
      rewrite H6. reflexivity. }
  assert (Hold_obj : forall x, In x (entries s) -> obj s1 x = obj s x).
  { intros x Hx. simpl. rewrite Forall_forall in Hfresh.
    destruct (Nat.eqb x (next_ref s)) eqn:E; [| reflexivity].
    apply Nat.eqb_eq in E. specialize (Hfresh x Hx). lia. }
  assert (Hnew : obj s1 (next_ref s) = e)
    by (simpl; rewrite Nat.eqb_refl; reflexivity).
  assert (Hte : is_address_type t = true)
    by (destruct Hfam as [[-> _] | [-> _]]; reflexivity).
  assert (Hve : entry_valid is_ipv4 is_ipv6 e = true).
  { unfold entry_valid, e. simpl. destruct Ha as [d [p ->]].
    destruct Hfam as [[-> H4] | [-> [_ H6]]]; simpl;
      [exact H4 | exact H6]. }
  destruct (add_no_conflict_run s1 (next_ref s)) as [out [Hadd Hout]].
  - rewrite Hnew. exact Hte.
  - rewrite Hnew. exact Hve.
  - apply Forall_forall. intros x Hx. simpl in Hx.
    rewrite (Hold_obj x Hx). rewrite Forall_forall in Hv. apply Hv.
    exact Hx.
  - exact Hw.
  - intros x Hx. simpl in Hx. rewrite Hnew. rewrite (Hold_obj x Hx).
    exact (Hfree x Hx).
  - assert (Hvals : map (obj s1) (entries s1 ++ [next_ref s])%list
                    = (entry_values s ++ [e])%list).
    { rewrite map_app.
      change (map (obj s1) [next_ref s]) with [obj s1 (next_ref s)].
      rewrite Hnew.
      f_equal. unfold entry_values. apply map_ext_in.
      intros x Hx. apply Hold_obj. exact Hx. }
    rewrite Hvals in Hout.
    assert (Htext : entry_text e
                    = Ok (a ++ TAB ++ join SP (n :: ns) ++ NL))
      by (destruct Hfam as [[-> _] | [-> _]]; reflexivity).
    rewrite (write_lines_snoc (entry_values s) e old _ Hold Htext) in Hout.
    inversion Hout. subst out.
    exists (set_hosts_file (Some (old ++ a ++ TAB ++ join SP (n :: ns) ++ NL))
              (set_entries (entries s1 ++ [next_ref s])%list s1)).
    split; [| split; [reflexivity | split; [exact Hvals | reflexivity]]].
    rewrite add_str_unfold, Hparse. exact Hadd.
Qed.

End Properties.

(** C3, witness: the file of three lines whose second is [foo bar]. *)
Lemma load_skips_unclassified_line_witness :
  populate_entries Utils.is_ipv4 Utils.is_ipv6
    (state_of [] [] (Some (lf "# a" ++ lf "foo bar" ++ lf "::1 six")))
  = load_lines Utils.is_ipv4 Utils.is_ipv6
      ([lf "# a"] ++ [lf "::1 six"])%list
      (state_of [] [] (Some (lf "# a" ++ lf "foo bar" ++ lf "::1 six"))).
Proof.
  apply (load_skips_unclassified_line Utils.is_ipv4 Utils.is_ipv6
           (lf "# a" ++ lf "foo bar" ++ lf "::1 six") (lf "foo bar") "foo"
           [lf "# a"] [lf "::1 six"] ["bar"]);
    reflexivity.
Defined.

(** C3, counterexample: loading the file whose only line is [foo bar],
    which starts with no address, no [#] and is not blank, does not fail:
    it returns normally and the collection is empty. *)
Lemma load_unclassified_line_succeeds :
  get_entry_type Utils.is_ipv4 Utils.is_ipv6 (lf "foo bar") = Ok None
  /\ Hosts_init Utils.is_ipv4 Utils.is_ipv6 unparseable_state
     = (unparseable_state, Ok tt)
  /\ entries unparseable_state = [].
Proof. repeat split. Qed.

(** C8, witness: an ipv4 entry without names. *)
Lemma init_address_entry_failures_witness :
  HostsEntry_init Utils.is_ipv4 Utils.is_ipv6 (Some "ipv4")
    (Some "127.0.0.1") None (Some []) empty_state
  = (empty_state, Raise missing_fields).
Proof.
  exact (proj1 (init_address_entry_failures Utils.is_ipv4 Utils.is_ipv6
                  Ipv4 (Some "127.0.0.1") None (Some [])
                  empty_state eq_refl)).
Defined.

(** C5, witness: an IPv6 line. *)
Lemma get_entry_type_follows_rule_witness :
  get_entry_type Utils.is_ipv4 Utils.is_ipv6 (lf "::1 localhost")
  = Ok (Some Ipv6).
Proof.
  apply (get_entry_type_follows_rule Utils.is_ipv4 Utils.is_ipv6
           (lf "::1 localhost")).
  - reflexivity.
  - right. right. discriminate.
Defined.

(** C5, counterexample: on the empty string the rule says blank, and the
    code raises an index error. *)
Lemma get_entry_type_empty_string :
  classify_spec Utils.is_ipv4 Utils.is_ipv6 EmptyString = Some Blank
  /\ get_entry_type Utils.is_ipv4 Utils.is_ipv6 EmptyString
     = Raise IndexError.
Proof. split; reflexivity. Qed.

(** C1: removing a comment from a collection that holds one with the same
    text drops that entry, and [remove] returns false. *)
Theorem remove_comment_returns_false :
  entries comment_state = [0]
  /\ obj comment_state 0 = note
  /\ obj comment_state 1 = note
  /\ remove (PEntry 1) comment_state
     = (set_hosts_file (Some EmptyString) (set_entries [] comment_state),
        Ok false).
Proof. repeat split. Qed.

(** C2: [str_to_hostentry] on the comment line [# a comment] builds a
    comment entry whose text is [#] alone, not the line, whereas the load
    of a file stores the whole line. *)
Theorem str_to_hostentry_truncates_comment :
  get_entry_type Utils.is_ipv4 Utils.is_ipv6 (lf "# a comment")
  = Ok (Some Comment)
  /\ snd (str_to_hostentry Utils.is_ipv4 Utils.is_ipv6 Utils.valid_hostnames
            (lf "# a comment") empty_state) = Ok (Some 0)
  /\ obj (fst (str_to_hostentry Utils.is_ipv4 Utils.is_ipv6
                 Utils.valid_hostnames (lf "# a comment") empty_state)) 0
     = mkEntry Comment None (Some "#") None
  /\ "#" <> lf "# a comment"
  /\ entry_values (fst (load_line Utils.is_ipv4 Utils.is_ipv6
                          (lf "# a comment") empty_state))
     = [mkEntry Comment None (Some (lf "# a comment")) None].
Proof. repeat split. discriminate. Qed.

(** C4, counterexample: the file whose only line is [127.0.0.1 localhost]
    with a space is loaded and written back with a tab: its content has
    changed. *)
Lemma load_write_changes_separator :
  hosts_file spaced_state = Some (lf "127.0.0.1 localhost")
  /\ snd (Hosts_init Utils.is_ipv4 Utils.is_ipv6 spaced_state) = Ok tt
  /\ snd (write (fst (Hosts_init Utils.is_ipv4 Utils.is_ipv6 spaced_state)))
     = Ok tt
  /\ hosts_file
       (fst (write (fst (Hosts_init Utils.is_ipv4 Utils.is_ipv6
                           spaced_state))))
     = Some ("127.0.0.1" ++ TAB ++ lf "localhost")
  /\ Some ("127.0.0.1" ++ TAB ++ lf "localhost")
     <> Some (lf "127.0.0.1 localhost").
Proof. repeat split. discriminate. Qed.

(** C4, witness: a file of four lines in serialized form. *)
Lemma load_write_roundtrip_witness :
  exists s1 s2 : State,
    Hosts_init Utils.is_ipv4 Utils.is_ipv6 serialized_state = (s1, Ok tt)
    /\ write s1 = (s2, Ok tt)
    /\ hosts_file s2 = Some serialized_content.
Proof.
  apply (load_write_roundtrip Utils.is_ipv4 Utils.is_ipv6
           serialized_state serialized_content).
  - reflexivity.
  - reflexivity.
  - change (readlines serialized_content)
      with [lf "# hosts"; NL;
            "127.0.0.1" ++ TAB ++ join SP ["localhost"; "loopback"] ++ NL;
            "::1" ++ TAB ++ join SP ["ip6-localhost"] ++ NL].
    constructor; [apply serialized_comment; reflexivity |].
    constructor; [apply serialized_blank |].
    constructor;
      [apply serialized_address;
         [reflexivity | reflexivity | repeat constructor] |].
    constructor;
      [apply serialized_address;
         [reflexivity | reflexivity | repeat constructor] |].
    constructor.
Defined.

(** C6, witness: [127.0.0.1 other] against [127.0.0.1 localhost]. *)
Lemma add_same_address_rejected_witness :
  add Utils.is_ipv4 Utils.is_ipv6 Utils.valid_hostnames (PEntry 1) false
      localhost_state
  = (localhost_state, Ok false).
Proof.
  apply (add_same_address_rejected Utils.is_ipv4 Utils.is_ipv6
           Utils.valid_hostnames localhost_state 1 0 "127.0.0.1").
  - reflexivity.
  - reflexivity.
  - left. reflexivity.
  - reflexivity.
  - reflexivity.
  - reflexivity.
Defined.

(** C7, witness: [127.0.0.1 other] forced over [127.0.0.1 localhost]. *)
Lemma add_force_replaces_witness :
  exists s' : State,
    add Utils.is_ipv4 Utils.is_ipv6 Utils.valid_hostnames (PEntry 1) true
        localhost_state = (s', Ok true)
    /\ obj s' = obj localhost_state
    /\ entries s'
       = (filter (fun x => negb (names_match (obj localhost_state 1)
                                             (obj localhost_state x)))
                 (entries localhost_state) ++ [1])%list
    /\ (forall x, In x (entries localhost_state) ->
                  has_address "127.0.0.1" (obj localhost_state x) = true ->
                  names_match (obj localhost_state 1)
                              (obj localhost_state x) = true)
    /\ List.length (filter (fun x => has_address "127.0.0.1" (obj s' x))
                           (entries s')) = 1.
Proof.
  apply (add_force_replaces Utils.is_ipv4 Utils.is_ipv6
           Utils.valid_hostnames localhost_state 1 "127.0.0.1").
  - reflexivity.
  - reflexivity.
  - reflexivity.
  - reflexivity.
  - constructor; [reflexivity | constructor].
  - reflexivity.
Defined.

(** C9, witness: the comment [# note] added twice. *)
Lemma add_duplicate_comment_rejected_witness :
  add Utils.is_ipv4 Utils.is_ipv6 Utils.valid_hostnames (PEntry 1) false
      comment_state
  = (comment_state, Ok false)
  /\ List.length (entries (fst (add Utils.is_ipv4 Utils.is_ipv6
                                    Utils.valid_hostnames (PEntry 1) false
                                    comment_state)))
     = List.length (entries comment_state).
Proof.
  apply (add_duplicate_comment_rejected Utils.is_ipv4 Utils.is_ipv6
           Utils.valid_hostnames comment_state 1 0 (lf "# note") false).
  - reflexivity.
  - reflexivity.
  - left. reflexivity.
  - reflexivity.
  - reflexivity.
Defined.

(** X2, witness: a line of one space. *)
Lemma add_blank_string_raises_witness :
  str_to_hostentry Utils.is_ipv4 Utils.is_ipv6 Utils.valid_hostnames
    (lf " ") sample_state = (sample_state, Raise IndexError)
  /\ add Utils.is_ipv4 Utils.is_ipv6 Utils.valid_hostnames (PStr (lf " "))
       false sample_state = (sample_state, Raise IndexError).
Proof.
  apply (add_blank_string_raises Utils.is_ipv4 Utils.is_ipv6
           Utils.valid_hostnames (lf " ") false sample_state).
  reflexivity.
Defined.

(** X3, witness: the string [foo bar]. *)
Lemma add_unparseable_string_raises_witness :
  str_to_hostentry Utils.is_ipv4 Utils.is_ipv6 Utils.valid_hostnames
    "foo bar" sample_state = (sample_state, Ok None)
  /\ add Utils.is_ipv4 Utils.is_ipv6 Utils.valid_hostnames (PStr "foo bar")
       false sample_state = (sample_state, Raise AttributeError).
Proof.
  apply (add_unparseable_string_raises Utils.is_ipv4 Utils.is_ipv6
           Utils.valid_hostnames "foo bar" "foo" ["bar"] false sample_state).
  - reflexivity.
  - reflexivity.
  - intro H. vm_compute in H. discriminate H.
Defined.

(** X4, witness: an IPv6 line. *)
Lemma load_line_as_str_to_hostentry_witness :
  load_line Utils.is_ipv4 Utils.is_ipv6 (lf "::1 localhost") empty_state
  = (r <- str_to_hostentry Utils.is_ipv4 Utils.is_ipv6
            Utils.valid_hostnames (lf "::1 localhost") ;;
     match r with
     | Some x => entries_append x
     | None => ret tt
     end) empty_state.
Proof.
  apply (load_line_as_str_to_hostentry Utils.is_ipv4 Utils.is_ipv6
           Utils.valid_hostnames (lf "::1 localhost") "::1" ["localhost"]
           empty_state).
  - reflexivity.
  - reflexivity.
  - reflexivity.
  - intros _. reflexivity.
Defined.

(** X5, witness: a comment, a line of one space, an IPv6 line. *)
Lemma load_whitespace_line_raises_witness :
  load_lines Utils.is_ipv4 Utils.is_ipv6
    ([lf "# a"] ++ lf " " :: [lf "::1 six"])%list empty_state
  = (fst (load_lines Utils.is_ipv4 Utils.is_ipv6 [lf "# a"] empty_state),
     Raise IndexError).
Proof.
  apply (load_whitespace_line_raises Utils.is_ipv4 Utils.is_ipv6
           [lf "# a"] [lf "::1 six"] (lf " ") empty_state).
  - discriminate.
  - reflexivity.
  - reflexivity.
  - reflexivity.
Defined.

(** X6, witness: a comment, then an address alone on its line. *)
Lemma load_address_without_names_raises_witness :
  load_lines Utils.is_ipv4 Utils.is_ipv6
    ([lf "# a"] ++ lf "127.0.0.1" :: [lf "::1 six"])%list empty_state
  = (fst (load_lines Utils.is_ipv4 Utils.is_ipv6 [lf "# a"] empty_state),
     Raise missing_fields).
Proof.
  apply (load_address_without_names_raises Utils.is_ipv4 Utils.is_ipv6
           [lf "# a"] [lf "::1 six"] (lf "127.0.0.1") "127.0.0.1"
           empty_state).
  - reflexivity.
  - reflexivity.
  - reflexivity.
  - reflexivity.
  - reflexivity.
Defined.

(** X9, witness: [10.0.0.1 router] added to the sample collection. *)
Lemma add_without_conflict_appends_witness :
  exists out : string,
    add Utils.is_ipv4 Utils.is_ipv6 Utils.valid_hostnames (PEntry 1) false
        sample_state
    = (set_hosts_file (Some out)
         (set_entries (entries sample_state ++ [1])%list sample_state),
       Ok true)
    /\ write_lines (map (obj sample_state)
                        (entries sample_state ++ [1])%list) EmptyString
       = (out, Ok tt).
Proof.
  apply (add_without_conflict_appends Utils.is_ipv4 Utils.is_ipv6
           Utils.valid_hostnames sample_state 1).
  - reflexivity.
  - reflexivity.
  - repeat constructor.
  - reflexivity.
  - intros x Hx. vm_compute in Hx.
    destruct Hx as [<- | [<- | [<- | []]]];
      (split; [vm_compute; discriminate |]);
      intros n Hn Hm; vm_compute in Hn, Hm;
      destruct Hn as [<- | []];
      repeat (destruct Hm as [Hm | Hm]; [discriminate Hm |]);
      exact Hm.
Defined.

(** X10, witness: [10.0.0.2 localhost] against [127.0.0.1 localhost]. *)
Lemma add_shared_name_rejected_witness :
  add Utils.is_ipv4 Utils.is_ipv6 Utils.valid_hostnames (PEntry 4) false
      sample_state
  = (sample_state, Ok false).
Proof.
  apply (add_shared_name_rejected Utils.is_ipv4 Utils.is_ipv6
           Utils.valid_hostnames sample_state 4 0 "localhost").
  - reflexivity.
  - left. reflexivity.
  - left. reflexivity.
  - left. reflexivity.
Defined.

(** X11, witness: a second blank entry. *)
Lemma add_comment_or_blank_appends_witness :
  exists out : string,
    add Utils.is_ipv4 Utils.is_ipv6 Utils.valid_hostnames (PEntry 3) false
        sample_state
    = (set_hosts_file (Some out)
         (set_entries (entries sample_state ++ [3])%list sample_state),
       Ok true)
    /\ write_lines (map (obj sample_state)
                        (entries sample_state ++ [3])%list) EmptyString
       = (out, Ok tt).
Proof.
  apply (add_comment_or_blank_appends Utils.is_ipv4 Utils.is_ipv6
           Utils.valid_hostnames sample_state 3 false).
  - reflexivity.
  - repeat constructor.
  - reflexivity.
  - left. reflexivity.
Defined.

(** X13, witness: removing [10.0.0.2 localhost] drops
    [127.0.0.1 localhost]. *)
Lemma remove_drops_selected_witness :
  exists (out : string) (b : bool),
    remove (PEntry 4) sample_state
    = (set_hosts_file (Some out)
         (set_entries
            (filter (fun x => negb (names_match (obj sample_state 4)
                                                (obj sample_state x)))
                    (entries sample_state)) sample_state),
       Ok b)
    /\ write_lines
         (map (obj sample_state)
              (filter (fun x => negb (names_match (obj sample_state 4)
                                                  (obj sample_state x)))
                      (entries sample_state))) EmptyString
       = (out, Ok tt)
    /\ (b = true <->
        exists x, In x (entries sample_state)
                  /\ names_match (obj sample_state 4) (obj sample_state x)
                     = true)
    /\ (b = true <->
        List.length
          (filter (fun x => negb (names_match (obj sample_state 4)
                                              (obj sample_state x)))
                  (entries sample_state))
        < List.length (entries sample_state)).
Proof.
  apply (remove_drops_selected Utils.is_ipv4 Utils.is_ipv6 sample_state 4).
  - reflexivity.
  - reflexivity.
  - repeat constructor.
Defined.

(** X14, witness: removing the comment [# note]. *)
Lemma remove_comment_drops_same_text_witness :
  exists (out : string) (b : bool),
    remove (PEntry 2) sample_state
    = (set_hosts_file (Some out)
         (set_entries
            (filter (fun x => negb (opt_str_eqb
                                      (comment (obj sample_state x))
                                      (Some (lf "# note"))))
                    (entries sample_state)) sample_state),
       Ok b)
    /\ write_lines
         (map (obj sample_state)
              (filter (fun x => negb (opt_str_eqb
                                        (comment (obj sample_state x))
                                        (Some (lf "# note"))))
                      (entries sample_state))) EmptyString
       = (out, Ok tt).
Proof.
  apply (remove_comment_drops_same_text Utils.is_ipv4 Utils.is_ipv6
           sample_state 2 (lf "# note")).
  - reflexivity.
  - reflexivity.
  - discriminate.
  - reflexivity.
  - repeat constructor.
Defined.

(** X15, witness: removing an entry that has names and comment text from
    the collection that holds it. *)
Lemma remove_double_match_raises_witness :
  exists s' : State,
    remove (PEntry 0) tagged_state = (s', Raise ValueError)
    /\ hosts_file s' = hosts_file tagged_state
    /\ obj s' = obj tagged_state.
Proof.
  apply (remove_double_match_raises tagged_state 0 0).
  - left. reflexivity.
  - reflexivity.
  - reflexivity.
Defined.

(** X16, witness: [127.0.0.1 other] forced twice. *)
Lemma add_force_idempotent_witness :
  exists s' : State,
    add Utils.is_ipv4 Utils.is_ipv6 Utils.valid_hostnames (PEntry 1) true
        localhost_state = (s', Ok true)
    /\ add Utils.is_ipv4 Utils.is_ipv6 Utils.valid_hostnames (PEntry 1) true
           s' = (s', Ok true).
Proof.
  apply (add_force_idempotent Utils.is_ipv4 Utils.is_ipv6
           Utils.valid_hostnames localhost_state 1).
  - reflexivity.
  - reflexivity.
  - reflexivity.
  - repeat constructor.
  - reflexivity.
Defined.

(** X17, witness: [10.0.0.1 router] added to the sample collection and
    removed again. *)
Lemma add_then_remove_restores_witness :
  exists (s1 : State) (out : string),
    add Utils.is_ipv4 Utils.is_ipv6 Utils.valid_hostnames (PEntry 1) false
        sample_state = (s1, Ok true)
    /\ remove (PEntry 1) s1 = (set_hosts_file (Some out) sample_state, Ok true)
    /\ write_lines (entry_values sample_state) EmptyString = (out, Ok tt).
Proof.
  apply (add_then_remove_restores Utils.is_ipv4 Utils.is_ipv6
           Utils.valid_hostnames sample_state 1).
  - reflexivity.
  - reflexivity.
  - reflexivity.
  - repeat constructor.
  - reflexivity.
  - intros x Hx. vm_compute in Hx.
    destruct Hx as [<- | [<- | [<- | []]]];
      (split; [vm_compute; discriminate |]);
      intros n Hn Hm; vm_compute in Hn, Hm;
      destruct Hn as [<- | []];
      repeat (destruct Hm as [Hm | Hm]; [discriminate Hm |]);
      exact Hm.
Defined.

(** X18, witness: [10.0.0.2 localhost] removed twice. *)
Lemma remove_twice_witness :
  exists (s1 : State) (b : bool),
    remove (PEntry 4) sample_state = (s1, Ok b)
    /\ remove (PEntry 4) s1 = (s1, Ok false).
Proof.
  apply (remove_twice Utils.is_ipv4 Utils.is_ipv6 sample_state 4).
  - reflexivity.
  - reflexivity.
  - repeat constructor.
Defined.

(** X19, witness: the sample collection written and loaded again. *)
Lemma write_load_roundtrip_witness :
  exists s1 s2 : State,
    write sample_state = (s1, Ok tt)
    /\ Hosts_init Utils.is_ipv4 Utils.is_ipv6 s1 = (s2, Ok tt)
    /\ entry_values s2 = entry_values sample_state
    /\ hosts_file s2 = hosts_file s1.
Proof.
  apply (write_load_roundtrip Utils.is_ipv4 Utils.is_ipv6 sample_state).
  - reflexivity.
  - repeat constructor.
Defined.

(** X21, witness: [10.0.0.1 router] forced into the sample collection. *)
Lemma add_keeps_valid_witness :
  obj (fst (add Utils.is_ipv4 Utils.is_ipv6 Utils.valid_hostnames (PEntry 1)
                true sample_state))
  = obj sample_state
  /\ Forall (fun x => entry_valid Utils.is_ipv4 Utils.is_ipv6
                        (obj sample_state x) = true)
            (entries (fst (add Utils.is_ipv4 Utils.is_ipv6
                               Utils.valid_hostnames (PEntry 1) true
                               sample_state))).
Proof.
  apply (add_keeps_valid Utils.is_ipv4 Utils.is_ipv6 Utils.valid_hostnames
           sample_state 1 true).
  - reflexivity.
  - repeat constructor.
Defined.

(** X22, witness: [192.168.1.5 myhost] added to an empty collection. *)
Lemma add_address_string_appends_witness :
  exists s' : State,
    add Utils.is_ipv4 Utils.is_ipv6 Utils.valid_hostnames
        (PStr "192.168.1.5 myhost") false empty_state = (s', Ok true)
    /\ entries s' = (entries empty_state ++ [next_ref empty_state])%list
    /\ entry_values s'
       = (entry_values empty_state
          ++ [mkEntry Ipv4 (Some "192.168.1.5") None (Some ["myhost"])])%list
    /\ hosts_file s'
       = Some (EmptyString ++ "192.168.1.5" ++ TAB ++ join SP ["myhost"]
               ++ NL).
Proof.
  apply (add_address_string_appends Utils.is_ipv4 Utils.is_ipv6
           Utils.valid_hostnames empty_state "192.168.1.5 myhost"
           "192.168.1.5" "myhost" [] Ipv4 EmptyString).
  - reflexivity.
  - reflexivity.
  - left. split; reflexivity.
  - reflexivity.
  - constructor.
  - constructor.
  - reflexivity.
  - intros x [].
  - reflexivity.
Defined.
